(** * PinPilot firmware (firmware/src/main.cpp): a shallow embedding

    The sketch is one blocking control loop over three collaborators it does
    not implement: the WiFi stack, the PubSubClient MQTT client and the
    Arduino core (millis, delay, Serial, GPIO).  Every call into them is an
    event of a trace; every value they hand back is read from an
    environment, one answer stream per call.  The program's own state is the
    function-local [static uint32_t last] of [loop()].

    The two [while] loops of the sketch have no bound.  They are run with a
    budget of rounds: an outcome is either [Returned] (the call came back) or
    [Blocked] (the budget ran out inside a loop, with the state reached so
    far).  A call that returned keeps its result under every larger budget;
    a call that is [Blocked] for every budget never returns. *)

From Stdlib Require Import ZArith List String Ascii Bool Lia.
Import ListNotations.
Local Open Scope Z_scope.

(** ** Build-time configuration *)

(** [DEVICE_NAME] may be given on the compiler command line; the two pin
    macros come from [pinmap.h] and may be absent in a hardware variant. *)
Record Build := mkBuild {
  DEVICE_NAME_flag : option string;
  EPAPER_SPI_2P13_CS : option Z;
  WS2812_DIN : option Z
}.

(** #ifndef DEVICE_NAME / #define DEVICE_NAME "pinpilot_device" / #endif *)
Definition DEVICE_NAME (b : Build) : string :=
  match DEVICE_NAME_flag b with
  | Some name => name
  | None => "pinpilot_device"%string
  end.

Definition WIFI_SSID : string := "YOUR_WIFI".
Definition WIFI_PASS : string := "YOUR_PASS".
Definition MQTT_HOST : string := "192.168.1.10".
Definition MQTT_PORT : Z := 1883.

(** ** The collaborators' vocabulary *)

(** Arguments of the Arduino core and WiFi calls the sketch makes. *)
Inductive pin_mode := INPUT | OUTPUT | INPUT_PULLUP.
Inductive pin_level := LOW | HIGH.
Inductive wifi_mode := WIFI_OFF | WIFI_STA | WIFI_AP | WIFI_AP_STA.

(** [WiFi.status()] answers a [wl_status_t], kept as its integer code; the
    WiFi library declares [WL_CONNECTED = 3]. *)
Definition WL_CONNECTED : Z := 3.

Inductive Event :=
| SerialBegin (baud : Z)
| SerialPrint (text : string)
| SerialPrintInt (n : Z)
| SerialPrintln (text : string)
| Delay (ms : Z)
| PinMode (pin : Z) (m : pin_mode)
| DigitalWrite (pin : Z) (l : pin_level)
| WiFiMode (m : wifi_mode)
| WiFiBegin (ssid pass : string)
| WiFiStatus (code : Z)
| MqttSetServer (host : string) (port : Z)
| MqttConnected (up : bool)
| MqttConnect (client_id : string) (ok : bool)
| MqttState (rc : Z)
| MqttPublish (topic payload : string)
| MqttLoop
| Millis (t : Z).

(** What the outside world answers: the k-th call of each kind gets the k-th
    answer.  [clock_at k] is the true number of milliseconds since boot when
    [millis()] is called for the k-th time; the call itself returns an
    [unsigned long] of 32 bits, so the sketch only sees it modulo 2^32. *)
Record Env := mkEnv {
  wifi_status_at : nat -> Z;
  connected_at : nat -> bool;
  connect_at : nat -> bool;
  state_at : nat -> Z;
  clock_at : nat -> Z
}.

(** ** Program state *)

Record State := mkState {
  last : Z;                 (* static uint32_t last, in loop() *)
  status_polls : nat;       (* calls of WiFi.status() so far *)
  connected_polls : nat;    (* calls of mqtt.connected() so far *)
  connect_calls : nat;      (* calls of mqtt.connect() so far *)
  state_calls : nat;        (* calls of mqtt.state() so far *)
  millis_calls : nat;       (* calls of millis() so far *)
  trace : list Event        (* every call made, oldest first *)
}.

(** static uint32_t last = 0; nothing has been called yet. *)
Definition boot : State := mkState 0 0 0 0 0 0 [].

Definition log (e : Event) (s : State) : State :=
  mkState (last s) (status_polls s) (connected_polls s) (connect_calls s)
          (state_calls s) (millis_calls s) (trace s ++ [e]).

Definition with_last (v : Z) (s : State) : State :=
  mkState v (status_polls s) (connected_polls s) (connect_calls s)
          (state_calls s) (millis_calls s) (trace s).

Definition next_status (s : State) : State :=
  mkState (last s) (S (status_polls s)) (connected_polls s) (connect_calls s)
          (state_calls s) (millis_calls s) (trace s).

Definition next_connected (s : State) : State :=
  mkState (last s) (status_polls s) (S (connected_polls s)) (connect_calls s)
          (state_calls s) (millis_calls s) (trace s).

Definition next_connect (s : State) : State :=
  mkState (last s) (status_polls s) (connected_polls s) (S (connect_calls s))
          (state_calls s) (millis_calls s) (trace s).

Definition next_state (s : State) : State :=
  mkState (last s) (status_polls s) (connected_polls s) (connect_calls s)
          (S (state_calls s)) (millis_calls s) (trace s).

Definition next_millis (s : State) : State :=
  mkState (last s) (status_polls s) (connected_polls s) (connect_calls s)
          (state_calls s) (S (millis_calls s)) (trace s).

(** ** 32-bit unsigned arithmetic *)

Definition U32 : Z := 2 ^ 32.
Definition to_u32 (z : Z) : Z := z mod U32.
(** [a - b] on two [uint32_t]. *)
Definition u32_sub (a b : Z) : Z := (a - b) mod U32.

(** ** Outcomes and the monad of blocking calls *)

Inductive Outcome (A : Type) :=
| Returned (a : A) (s : State)
| Blocked (s : State).
Arguments Returned {A} a s.
Arguments Blocked {A} s.

Definition state_of {A} (o : Outcome A) : State :=
  match o with Returned _ s => s | Blocked s => s end.

Definition returned {A} (o : Outcome A) : bool :=
  match o with Returned _ _ => true | Blocked _ => false end.

Definition M (A : Type) : Type := State -> Outcome A.

Definition ret {A} (a : A) : M A := fun s => Returned a s.

Definition bind {A B} (m : M A) (k : A -> M B) : M B :=
  fun s => match m s with
           | Returned a s' => k a s'
           | Blocked s' => Blocked s'
           end.

Notation "x <- m ;; k" := (bind m (fun x => k))
  (at level 61, m at next level, right associativity).
Notation "m ;; k" := (bind m (fun _ => k))
  (at level 61, right associativity).

Definition emit (e : Event) : M unit := fun s => Returned tt (log e s).

(** while (cond) { body }, for at most [fuel] evaluations of [cond]. *)
Fixpoint while (fuel : nat) (cond : M bool) (body : M unit) : M unit :=
  fun s =>
    match fuel with
    | O => Blocked s
    | S fuel' =>
        (c <- cond ;; if c then body ;; while fuel' cond body else ret tt) s
    end.

(** The Arduino core's main: setup() once, then loop() again and again.  Here
    the first [n] rounds. *)
Fixpoint repeat_loop (n : nat) (body : M unit) : M unit :=
  match n with
  | O => ret tt
  | S n' => body ;; repeat_loop n' body
  end.

(** ** The sketch *)

Section Sketch.

Variable env : Env.
Variable build : Build.

(** *** Calls into the collaborators *)

Definition Serial_begin (baud : Z) : M unit := emit (SerialBegin baud).
Definition Serial_print (text : string) : M unit := emit (SerialPrint text).
Definition Serial_print_int (n : Z) : M unit := emit (SerialPrintInt n).
Definition Serial_println (text : string) : M unit := emit (SerialPrintln text).
Definition delay (ms : Z) : M unit := emit (Delay ms).
Definition pinMode (pin : Z) (m : pin_mode) : M unit := emit (PinMode pin m).
Definition digitalWrite (pin : Z) (l : pin_level) : M unit :=
  emit (DigitalWrite pin l).
Definition WiFi_mode (m : wifi_mode) : M unit := emit (WiFiMode m).
Definition WiFi_begin (ssid pass : string) : M unit := emit (WiFiBegin ssid pass).
Definition mqtt_setServer (host : string) (port : Z) : M unit :=
  emit (MqttSetServer host port).
Definition mqtt_publish (topic payload : string) : M unit :=
  emit (MqttPublish topic payload).
Definition mqtt_loop : M unit := emit MqttLoop.

Definition WiFi_status : M Z := fun s =>
  let code := wifi_status_at env (status_polls s) in
  Returned code (log (WiFiStatus code) (next_status s)).

Definition mqtt_connected : M bool := fun s =>
  let up := connected_at env (connected_polls s) in
  Returned up (log (MqttConnected up) (next_connected s)).

Definition mqtt_connect (client_id : string) : M bool := fun s =>
  let ok := connect_at env (connect_calls s) in
  Returned ok (log (MqttConnect client_id ok) (next_connect s)).

Definition mqtt_state : M Z := fun s =>
  let rc := state_at env (state_calls s) in
  Returned rc (log (MqttState rc) (next_state s)).

Definition millis : M Z := fun s =>
  let t := clock_at env (millis_calls s) in
  Returned (to_u32 t) (log (Millis t) (next_millis s)).

Definition get_last : M Z := fun s => Returned (last s) s.
Definition set_last (v : Z) : M unit := fun s => Returned tt (with_last v s).

(** *** static void connectWiFi() *)
Definition connectWiFi (fuel : nat) : M unit :=
  WiFi_mode WIFI_STA ;;
  WiFi_begin WIFI_SSID WIFI_PASS ;;
  while fuel
    (st <- WiFi_status ;; ret (negb (st =? WL_CONNECTED)))
    (delay 300 ;;
     Serial_print ".") ;;
  Serial_println (String "010"%char "WiFi connected").

(** *** static void mqttReconnect() *)
Definition mqttReconnect (fuel : nat) : M unit :=
  while fuel
    (up <- mqtt_connected ;; ret (negb up))
    (Serial_print "MQTT connecting..." ;;
     ok <- mqtt_connect (DEVICE_NAME build) ;;
     if ok then
       Serial_println "connected" ;;
       mqtt_publish "pinpilot/status" "online"
     else
       Serial_print "failed rc=" ;;
       rc <- mqtt_state ;;
       Serial_print_int rc ;;
       Serial_println " retry in 2s" ;;
       delay 2000).

(** One [#ifdef PIN] block of setup(): nothing at all when the macro is not
    defined. *)
Definition ifdef_pin (pin : option Z) (l : pin_level) : M unit :=
  match pin with
  | Some p => pinMode p OUTPUT ;; digitalWrite p l
  | None => ret tt
  end.

(** *** void setup() *)
Definition setup (fuel : nat) : M unit :=
  Serial_begin 115200 ;;
  delay 200 ;;
  ifdef_pin (EPAPER_SPI_2P13_CS build) HIGH ;;
  ifdef_pin (WS2812_DIN build) LOW ;;
  connectWiFi fuel ;;
  mqtt_setServer MQTT_HOST MQTT_PORT.

(** *** void loop() *)
Definition loop (fuel : nat) : M unit :=
  up <- mqtt_connected ;;
  (if negb up then mqttReconnect fuel else ret tt) ;;
  mqtt_loop ;;
  now <- millis ;;
  l <- get_last ;;
  if 5000 <? u32_sub now l then
    t <- millis ;;
    set_last t ;;
    mqtt_publish "pinpilot/heartbeat" (DEVICE_NAME build)
  else ret tt.

(** setup(), then the first [n] rounds of loop(). *)
Definition firmware (fuel n : nat) : M unit :=
  setup fuel ;; repeat_loop n (loop fuel).

End Sketch.

(** ** Reading traces *)

Definition is_heartbeat (e : Event) : bool :=
  match e with
  | MqttPublish topic _ => (topic =? "pinpilot/heartbeat")%string
  | _ => false
  end.

Definition is_online (e : Event) : bool :=
  match e with
  | MqttPublish topic payload =>
      ((topic =? "pinpilot/status") && (payload =? "online"))%string
  | _ => false
  end.

Definition is_publish (e : Event) : bool :=
  match e with MqttPublish _ _ => true | _ => false end.

Definition is_poll (e : Event) : bool :=
  match e with MqttLoop => true | _ => false end.

Definition is_connect (e : Event) : bool :=
  match e with MqttConnect _ _ => true | _ => false end.

Definition is_connect_ok (e : Event) : bool :=
  match e with MqttConnect _ ok => ok | _ => false end.

Definition is_connect_failed (e : Event) : bool :=
  match e with MqttConnect _ ok => negb ok | _ => false end.

Definition is_delay (ms : Z) (e : Event) : bool :=
  match e with Delay d => d =? ms | _ => false end.

Definition is_any_delay (e : Event) : bool :=
  match e with Delay _ => true | _ => false end.

Definition is_status_poll (e : Event) : bool :=
  match e with WiFiStatus _ => true | _ => false end.

Definition is_pin_op (e : Event) : bool :=
  match e with PinMode _ _ | DigitalWrite _ _ => true | _ => false end.

Definition count (p : Event -> bool) (evs : list Event) : nat :=
  List.length (filter p evs).

(** The two messages the sketch may publish. *)
Definition allowed_publish (b : Build) (e : Event) : Prop :=
  match e with
  | MqttPublish topic payload =>
      (topic = "pinpilot/status"%string /\ payload = "online"%string) \/
      (topic = "pinpilot/heartbeat"%string /\ payload = DEVICE_NAME b)
  | _ => True
  end.

(** The pin operations one [#ifdef] block stands for. *)
Definition pin_ops (pin : option Z) (l : pin_level) : list Event :=
  match pin with
  | Some p => [PinMode p OUTPUT; DigitalWrite p l]
  | None => []
  end.

(** The latest true time read by [millis()] in a trace, [cur] if none. *)
Fixpoint latest_millis (cur : Z) (evs : list Event) : Z :=
  match evs with
  | [] => cur
  | Millis t :: evs' => latest_millis t evs'
  | _ :: evs' => latest_millis cur evs'
  end.

(** The true time of each heartbeat of a trace, oldest first: the time of the
    [millis()] reading that was stored in [last] just before the publish. *)
Fixpoint heartbeat_times (cur : Z) (evs : list Event) : list Z :=
  match evs with
  | [] => []
  | Millis t :: evs' => heartbeat_times t evs'
  | e :: evs' =>
      if is_heartbeat e then cur :: heartbeat_times cur evs'
      else heartbeat_times cur evs'
  end.

(** The answers of the calls of mqtt.connect() in a trace, oldest first. *)
Fixpoint connect_results (evs : list Event) : list bool :=
  match evs with
  | [] => []
  | MqttConnect _ ok :: evs' => ok :: connect_results evs'
  | _ :: evs' => connect_results evs'
  end.

(** Consecutive times are more than 5000 ms apart. *)
Fixpoint spaced (ts : list Z) : Prop :=
  match ts with
  | a :: (b :: _) as rest => 5000 < b - a /\ spaced rest
  | _ => True
  end.

(** True time never runs backwards. *)
Definition monotone_clock (env : Env) : Prop :=
  forall i j : nat, (i <= j)%nat -> clock_at env i <= clock_at env j.

(** [n] full rounds of the loop of mqttReconnect(): each one a poll that
    reports the client down, a connect under the device name, and then either
    the "online" publish or the diagnostics and the wait of 2000 ms. *)
Inductive reconnect_rounds (b : Build) : nat -> list Event -> Prop :=
| rr_none : reconnect_rounds b O []
| rr_connected (n : nat) (rest : list Event) :
    reconnect_rounds b n rest ->
    reconnect_rounds b (S n)
      (MqttConnected false :: SerialPrint "MQTT connecting..." ::
       MqttConnect (DEVICE_NAME b) true :: SerialPrintln "connected" ::
       MqttPublish "pinpilot/status" "online" :: rest)
| rr_failed (n : nat) (rc : Z) (rest : list Event) :
    reconnect_rounds b n rest ->
    reconnect_rounds b (S n)
      (MqttConnected false :: SerialPrint "MQTT connecting..." ::
       MqttConnect (DEVICE_NAME b) false :: SerialPrint "failed rc=" ::
       MqttState rc :: SerialPrintInt rc :: SerialPrintln " retry in 2s" ::
       Delay 2000 :: rest).

(** [n] full rounds of the loop of connectWiFi(): a status other than
    WL_CONNECTED, the wait of 300 ms and the dot. *)
Inductive wifi_rounds : nat -> list Event -> Prop :=
| wr_none : wifi_rounds O []
| wr_wait (n : nat) (code : Z) (rest : list Event) :
    code <> WL_CONNECTED ->
    wifi_rounds n rest ->
    wifi_rounds (S n)
      (WiFiStatus code :: Delay 300 :: SerialPrint "." :: rest).

(** ** Relations between the state before and after a call *)

(** The trace only grows, by events that satisfy [Q]. *)
Definition grows (Q : list Event -> Prop) (s s' : State) : Prop :=
  exists evs, trace s' = trace s ++ evs /\ Q evs.

(** The heartbeat timer is untouched: neither [last] nor the number of
    [millis()] readings changes. *)
Definition same_timer (s s' : State) : Prop :=
  last s' = last s /\ millis_calls s' = millis_calls s.

(** Whatever the outcome of [m], the state it leaves is related to the state
    it started from. *)
Definition respects {A} (R : State -> State -> Prop) (m : M A) : Prop :=
  forall s, R s (state_of (m s)).

(** Events that belong to neither the keepalive poll nor the heartbeat. *)
Definition quiet (e : Event) : bool :=
  match e with
  | MqttLoop | Millis _ => false
  | _ => negb (is_heartbeat e)
  end.

(** What one round of loop() does before the keepalive poll: the poll of
    mqtt.connected(), and when it reports the client down, a whole call of
    mqttReconnect() that returns. *)
Definition connect_phase (b : Build) (evs : list Event) : Prop :=
  evs = [MqttConnected true] \/
  exists n r, reconnect_rounds b n r /\
              evs = MqttConnected false :: r ++ [MqttConnected true].

(** The timer's invariant: the heartbeats published so far are more than
    5000 ms of true time apart, and [last] holds the 32-bit reading of the
    latest one (0 before the first), which was taken by an earlier call of
    [millis()]. *)
Definition timer_inv (env : Env) (s : State) : Prop :=
  let hbs := heartbeat_times 0 (trace s) in
  spaced hbs /\
  last s = to_u32 (List.last hbs 0) /\
  (hbs = [] \/
   exists j, (j < millis_calls s)%nat /\ List.last hbs 0 = clock_at env j).

(** Some poll of mqtt.connected() among the next [fuel + 1] ones reports the
    client up: the one at the entry of loop(), or one inside mqttReconnect()
    within its budget. *)
Definition connects_within (env : Env) (s : State) (fuel : nat) : Prop :=
  exists n, (n <= fuel)%nat /\ connected_at env (connected_polls s + n) = true.

(** The state with an empty trace, and an outcome with [tr] put back in
    front of its trace. *)
Definition clear (s : State) : State :=
  mkState (last s) (status_polls s) (connected_polls s) (connect_calls s)
          (state_calls s) (millis_calls s) [].

Definition prepend {A} (tr : list Event) (o : Outcome A) : Outcome A :=
  match o with
  | Returned a s =>
      Returned a (mkState (last s) (status_polls s) (connected_polls s)
                          (connect_calls s) (state_calls s) (millis_calls s)
                          (tr ++ trace s))
  | Blocked s =>
      Blocked (mkState (last s) (status_polls s) (connected_polls s)
                       (connect_calls s) (state_calls s) (millis_calls s)
                       (tr ++ trace s))
  end.

(** A call never looks at the trace: what it does after any history is what
    it does after none, with the history in front. *)
Definition trace_blind {A} (m : M A) : Prop :=
  forall s, m s = prepend (trace s) (m (clear s)).

(** The events of a trace that are not pin operations. *)
Definition non_pin (evs : list Event) : list Event :=
  filter (fun e => negb (is_pin_op e)) evs.

(** The events initialization is made of: serial output, waits, pin
    operations and the calls that set the two links up. *)
Definition boot_event (e : Event) : bool :=
  match e with
  | SerialBegin _ | SerialPrint _ | SerialPrintln _ | Delay _
  | PinMode _ _ | DigitalWrite _ _
  | WiFiMode _ | WiFiBegin _ _ | WiFiStatus _ | MqttSetServer _ _ => true
  | _ => false
  end.

(** What setup() may do to the state: add boot events to the trace, and
    leave the heartbeat timer alone. *)
Definition boot_step (s s' : State) : Prop :=
  same_timer s s' /\ grows (Forall (fun e => boot_event e = true)) s s'.

(** What the firmware publishes along a stretch of trace: only the two
    allowed messages, and "online" as often as a connect succeeded. *)
Definition publishes_ok (b : Build) (evs : list Event) : Prop :=
  Forall (allowed_publish b) evs /\
  count is_online evs = count is_connect_ok evs.

(** An invariant carried from the state before a call to the state after. *)
Definition carries (I : State -> Prop) (s s' : State) : Prop := I s -> I s'.

(** ** Sample builds and environments *)

Definition default_build : Build := mkBuild None None None.
Definition full_build : Build := mkBuild (Some "bench_unit"%string) (Some 5) (Some 48).

(** The link associates on the third poll, the broker accepts the second
    connect, and true time advances by 2500 ms per [millis()] call. *)
Definition calm_env : Env :=
  mkEnv (fun k => if (k <? 2)%nat then 6 else 3)
        (fun k => if (k <? 2)%nat then false else true)
        (fun k => if (k <? 1)%nat then false else true)
        (fun _ => -2)
        (fun k => 2500 * Z.of_nat k).

(** The link never associates and the broker never answers. *)
Definition dead_env : Env :=
  mkEnv (fun _ => 6) (fun _ => false) (fun _ => false) (fun _ => -2) (fun _ => 0).

(** The broker accepts every connect, but the client reports the connection
    lost again right after the first one. *)
Definition flaky_env : Env :=
  mkEnv (fun _ => 3)
        (fun k => if (k <? 2)%nat then false else true)
        (fun _ => true)
        (fun _ => 0)
        (fun k => 1000 * Z.of_nat k).

(** [millis()] reads exactly 5000 at the first heartbeat test. *)
Definition edge_env : Env :=
  mkEnv (fun _ => 3) (fun _ => true) (fun _ => true) (fun _ => 0)
        (fun k => 5000 + Z.of_nat k).

(** True time starts just below 2^32 and advances by 3000 ms per call, so
    the 32-bit counter wraps at once. *)
Definition wrap_env : Env :=
  mkEnv (fun _ => 3) (fun _ => true) (fun _ => true) (fun _ => 0)
        (fun k => 4294966296 + 3000 * Z.of_nat k).


(** ** More ways to read a trace *)

Definition is_mqtt (e : Event) : bool :=
  match e with
  | MqttSetServer _ _ | MqttConnected _ | MqttConnect _ _ | MqttState _
  | MqttPublish _ _ | MqttLoop => true
  | _ => false
  end.

Definition is_set_server (e : Event) : bool :=
  match e with MqttSetServer _ _ => true | _ => false end.

Definition is_wifi_begin (e : Event) : bool :=
  match e with WiFiBegin _ _ => true | _ => false end.

Definition is_wifi_mode (e : Event) : bool :=
  match e with WiFiMode _ => true | _ => false end.

Definition is_millis (e : Event) : bool :=
  match e with Millis _ => true | _ => false end.

Definition is_state_read (e : Event) : bool :=
  match e with MqttState _ => true | _ => false end.

(** A connect, if the event is one, is made under the device name. *)
Definition connects_as (b : Build) (e : Event) : Prop :=
  match e with
  | MqttConnect client_id _ => client_id = DEVICE_NAME b
  | _ => True
  end.

(** Along a stretch of trace the sketch backs off and reads the client's
    state once for every connect that failed, and never otherwise. *)
Definition backs_off (evs : list Event) : Prop :=
  count (is_delay 2000) evs = count is_connect_failed evs /\
  count is_state_read evs = count is_connect_failed evs.

(** No heartbeat has been published and [last] still has its boot value. *)
Definition timer_idle (s : State) : Prop :=
  last s = 0 /\ count is_heartbeat (trace s) = O.

(** ** Tactics for straight-line code *)

Ltac straight_line :=
  unfold bind, ret, Serial_begin, Serial_print, Serial_print_int, Serial_println,
    delay, pinMode, digitalWrite, WiFi_mode, WiFi_begin, mqtt_setServer,
    mqtt_publish, mqtt_loop, mqtt_state, mqtt_connect, mqtt_connected,
    WiFi_status, millis, get_last, set_last, emit;
  cbn beta iota zeta.

Ltac fields :=
  unfold same_timer in *;
  cbn [trace last status_polls connected_polls connect_calls state_calls
       millis_calls log with_last next_status next_connected next_connect
       next_state next_millis state_of] in *.

Ltac by_assoc H :=
  rewrite H; repeat first [rewrite <- app_assoc | progress cbn [app]];
  reflexivity.

(** * Proofs *)

(** ** 32-bit arithmetic *)

Lemma U32_pos : 0 < U32.
Proof. reflexivity. Qed.

Lemma u32_sub_readings (t0 t1 : Z) :
  u32_sub (to_u32 t1) (to_u32 t0) = (t1 - t0) mod U32.
Proof.
  unfold u32_sub, to_u32. symmetry. apply Zminus_mod.
Qed.

Lemma u32_sub_small (t0 t1 : Z) :
  0 <= t1 - t0 < U32 -> u32_sub (to_u32 t1) (to_u32 t0) = t1 - t0.
Proof.
  intros H. rewrite u32_sub_readings. now apply Z.mod_small.
Qed.

Lemma u32_sub_le_gap (t0 t1 : Z) :
  t0 <= t1 -> u32_sub (to_u32 t1) (to_u32 t0) <= t1 - t0.
Proof.
  intros H. rewrite u32_sub_readings.
  apply Z.mod_le; [lia | apply U32_pos].
Qed.

(** ** Relations kept by every call *)

Section Preorder.

Variable R : State -> State -> Prop.
Hypothesis R_refl : forall s, R s s.
Hypothesis R_trans : forall s1 s2 s3, R s1 s2 -> R s2 s3 -> R s1 s3.

Lemma respects_ret {A} (a : A) : respects R (ret a).
Proof. intros s. apply R_refl. Qed.

Lemma respects_bind {A B} (m : M A) (k : A -> M B) :
  respects R m -> (forall a, respects R (k a)) -> respects R (bind m k).
Proof.
  intros Hm Hk s. unfold bind. specialize (Hm s).
  destruct (m s) as [a s1 | s1]; simpl in *.
  - eapply R_trans; [exact Hm | apply Hk].
  - exact Hm.
Qed.

Lemma respects_if {A} (c : bool) (m1 m2 : M A) :
  respects R m1 -> respects R m2 -> respects R (if c then m1 else m2).
Proof. destruct c; auto. Qed.

Lemma respects_while (cond : M bool) (body : M unit) :
  respects R cond -> respects R body ->
  forall fuel, respects R (while fuel cond body).
Proof.
  intros Hc Hb. induction fuel as [| fuel IH]; intros s.
  - apply R_refl.
  - change (while (S fuel) cond body s)
      with ((c <- cond ;; if c then body ;; while fuel cond body else ret tt) s).
    apply respects_bind; [exact Hc |].
    intros c. apply respects_if.
    + apply respects_bind; [exact Hb | intros _; exact IH].
    + apply respects_ret.
Qed.

Lemma respects_repeat (body : M unit) :
  respects R body -> forall n, respects R (repeat_loop n body).
Proof.
  intros Hb. induction n as [| n IH]; simpl.
  - apply respects_ret.
  - apply respects_bind; [exact Hb | intros _; exact IH].
Qed.

End Preorder.

(** A loop that returned within some budget returns the same under any
    larger one: the budget only bounds how far a run is followed. *)
Lemma while_stable (cond : M bool) (body : M unit) (fuel : nat) :
  forall s a s',
    while fuel cond body s = Returned a s' ->
    forall more, while (fuel + more) cond body s = Returned a s'.
Proof.
  induction fuel as [| fuel IH]; intros s a s' Hrun more.
  - discriminate.
  - cbn [Nat.add while] in *. unfold bind in *.
    destruct (cond s) as [c s1 | s1]; [| discriminate].
    destruct c; [| exact Hrun].
    destruct (body s1) as [[] s2 | s2]; [| discriminate].
    now apply IH.
Qed.

Lemma same_timer_refl (s : State) : same_timer s s.
Proof. split; reflexivity. Qed.

Lemma same_timer_trans (s1 s2 s3 : State) :
  same_timer s1 s2 -> same_timer s2 s3 -> same_timer s1 s3.
Proof. unfold same_timer. intros [? ?] [? ?]. split; congruence. Qed.

Section Growth.

Variable Q : list Event -> Prop.
Hypothesis Q_nil : Q [].
Hypothesis Q_app : forall a b, Q a -> Q b -> Q (a ++ b).

Lemma grows_refl (s : State) : grows Q s s.
Proof. exists []. now rewrite app_nil_r. Qed.

Lemma grows_trans (s1 s2 s3 : State) :
  grows Q s1 s2 -> grows Q s2 s3 -> grows Q s1 s3.
Proof.
  intros (a & Ha & Qa) (b & Hb & Qb). exists (a ++ b). split.
  - rewrite Hb, Ha. now rewrite app_assoc.
  - now apply Q_app.
Qed.

End Growth.

(** ** The shape of every run of the two waiting loops *)

Lemma shift_index (P : nat -> Prop) (k n : nat) :
  P k ->
  (forall i, (i < n)%nat -> P (S k + i)%nat) ->
  forall i, (i < S n)%nat -> P (k + i)%nat.
Proof.
  intros H0 Hn [| i] Hi.
  - now rewrite Nat.add_0_r.
  - rewrite Nat.add_succ_r. apply Hn. lia.
Qed.

Lemma results_shift (f : nat -> bool) (k n : nat) (v : bool) (l : list bool) :
  f k = v ->
  l = map (fun i => f (S k + i)%nat) (seq 0 n) ->
  v :: l = map (fun i => f (k + i)%nat) (seq 0 (S n)).
Proof.
  intros Hv ->. cbn [seq map]. rewrite Nat.add_0_r, Hv. f_equal.
  rewrite <- seq_shift, map_map. apply map_ext.
  intros i. now rewrite Nat.add_succ_r.
Qed.

Section SketchFacts.

Variable env : Env.
Variable b : Build.

(** A call of mqttReconnect() that returns went through [n] full rounds and
    one last poll that found the client up; one that is still inside the loop
    when the budget ends went through as many rounds as the budget. *)
Lemma mqttReconnect_shape (fuel : nat) : forall s,
  match mqttReconnect env b fuel s with
  | Returned _ s' =>
      exists n r, (n < fuel)%nat /\ reconnect_rounds b n r /\
        trace s' = trace s ++ r ++ [MqttConnected true] /\
        same_timer s s' /\
        (forall i, (i < n)%nat ->
                   connected_at env (connected_polls s + i) = false) /\
        connected_at env (connected_polls s + n) = true /\
        connect_results r =
          map (fun i => connect_at env (connect_calls s + i)) (seq 0 n)
  | Blocked s' =>
      exists r, reconnect_rounds b fuel r /\
        trace s' = trace s ++ r /\
        same_timer s s' /\
        (forall i, (i < fuel)%nat ->
                   connected_at env (connected_polls s + i) = false) /\
        connect_results r =
          map (fun i => connect_at env (connect_calls s + i)) (seq 0 fuel)
  end.
Proof.
  induction fuel as [| fuel IH]; intros s.
  - simpl. exists []. repeat split.
    + constructor.
    + now rewrite app_nil_r.
    + intros; lia.
  - unfold mqttReconnect in *. cbn [while].
    set (W := while fuel _ _) in *.
    straight_line.
    destruct (connected_at env (connected_polls s)) eqn:Hup; cbn [negb].
    + exists O, []. cbn. rewrite Nat.add_0_r.
      repeat split; auto; try lia. constructor.
    + cbn [connect_calls log next_connected].
      destruct (connect_at env (connect_calls s)) eqn:Hok;
        match goal with
        | |- context [W ?st] =>
            specialize (IH st); destruct (W st) as [[] s' | s']
        end; fields.
      * destruct IH as (n & r & Hn & Hr & Ht & Hs & Hlo & Hhi & Hres).
        exists (S n). eexists. split; [lia |].
        split; [apply rr_connected, Hr |].
        split; [by_assoc Ht |]. split; [exact Hs |]. split; [| split].
        -- now apply (shift_index (fun k => connected_at env k = false)).
        -- now rewrite Nat.add_succ_r.
        -- cbn [connect_results]. now apply results_shift.
      * destruct IH as (r & Hr & Ht & Hs & Hlo & Hres).
        eexists. split; [apply rr_connected, Hr |].
        split; [by_assoc Ht |]. split; [exact Hs |]. split.
        -- now apply (shift_index (fun k => connected_at env k = false)).
        -- cbn [connect_results]. now apply results_shift.
      * destruct IH as (n & r & Hn & Hr & Ht & Hs & Hlo & Hhi & Hres).
        exists (S n). eexists. split; [lia |].
        split; [eapply rr_failed, Hr |].
        split; [by_assoc Ht |]. split; [exact Hs |]. split; [| split].
        -- now apply (shift_index (fun k => connected_at env k = false)).
        -- now rewrite Nat.add_succ_r.
        -- cbn [connect_results]. now apply results_shift.
      * destruct IH as (r & Hr & Ht & Hs & Hlo & Hres).
        eexists. split; [eapply rr_failed, Hr |].
        split; [by_assoc Ht |]. split; [exact Hs |]. split.
        -- now apply (shift_index (fun k => connected_at env k = false)).
        -- cbn [connect_results]. now apply results_shift.
Qed.

(** The same for the polling loop of connectWiFi(). *)
Lemma wifi_wait_shape (fuel : nat) : forall s,
  match while fuel
          (st <- WiFi_status env ;; ret (negb (st =? WL_CONNECTED)))
          (delay 300 ;; Serial_print ".") s with
  | Returned _ s' =>
      exists n r, (n < fuel)%nat /\ wifi_rounds n r /\
        trace s' = trace s ++ r ++ [WiFiStatus WL_CONNECTED] /\
        same_timer s s' /\
        (forall i, (i < n)%nat ->
                   wifi_status_at env (status_polls s + i) <> WL_CONNECTED) /\
        wifi_status_at env (status_polls s + n) = WL_CONNECTED
  | Blocked s' =>
      exists r, wifi_rounds fuel r /\
        trace s' = trace s ++ r /\
        same_timer s s' /\
        (forall i, (i < fuel)%nat ->
                   wifi_status_at env (status_polls s + i) <> WL_CONNECTED)
  end.
Proof.
  induction fuel as [| fuel IH]; intros s.
  - simpl. exists []. repeat split.
    + constructor.
    + now rewrite app_nil_r.
    + intros; lia.
  - cbn [while]. set (W := while fuel _ _) in *.
    straight_line.
    destruct (Z.eqb_spec (wifi_status_at env (status_polls s)) WL_CONNECTED)
      as [Heq | Hne]; cbn [negb].
    + exists O, []. cbn. rewrite Nat.add_0_r, Heq.
      repeat split; auto; try lia. constructor.
    + match goal with
      | |- context [W ?st] =>
          specialize (IH st); destruct (W st) as [[] s' | s']
      end; fields.
      * destruct IH as (n & r & Hn & Hr & Ht & Hs & Hlo & Hhi).
        exists (S n). eexists. split; [lia |].
        split; [apply wr_wait; [exact Hne | exact Hr] |].
        split; [by_assoc Ht |]. split; [exact Hs |]. split.
        -- now apply (shift_index (fun k => wifi_status_at env k <> WL_CONNECTED)).
        -- now rewrite Nat.add_succ_r.
      * destruct IH as (r & Hr & Ht & Hs & Hlo).
        eexists. split; [apply wr_wait; [exact Hne | exact Hr] |].
        split; [by_assoc Ht |]. split; [exact Hs |].
        now apply (shift_index (fun k => wifi_status_at env k <> WL_CONNECTED)).
Qed.

Lemma connectWiFi_shape (fuel : nat) (s : State) :
  match connectWiFi env fuel s with
  | Returned _ s' =>
      exists n r, (n < fuel)%nat /\ wifi_rounds n r /\
        trace s' = trace s ++ WiFiMode WIFI_STA :: WiFiBegin WIFI_SSID WIFI_PASS ::
                     r ++ [WiFiStatus WL_CONNECTED;
                           SerialPrintln (String "010"%char "WiFi connected")] /\
        same_timer s s' /\
        (forall i, (i < n)%nat ->
                   wifi_status_at env (status_polls s + i) <> WL_CONNECTED) /\
        wifi_status_at env (status_polls s + n) = WL_CONNECTED
  | Blocked s' =>
      exists r, wifi_rounds fuel r /\
        trace s' = trace s ++ WiFiMode WIFI_STA :: WiFiBegin WIFI_SSID WIFI_PASS :: r /\
        same_timer s s' /\
        (forall i, (i < fuel)%nat ->
                   wifi_status_at env (status_polls s + i) <> WL_CONNECTED)
  end.
Proof.
  unfold connectWiFi. set (W := while fuel _ _).
  straight_line. subst W.
  match goal with
  | |- context [while fuel ?c ?bd ?st] =>
      pose proof (wifi_wait_shape fuel st) as H;
      destruct (while fuel c bd st) as [[] s' | s']
  end; fields.
  - destruct H as (n & r & Hn & Hr & Ht & Hs & Hlo & Hhi).
    exists n, r. repeat split; try assumption; try apply Hs.
    by_assoc Ht.
  - destruct H as (r & Hr & Ht & Hs & Hlo).
    exists r. repeat split; try assumption; try apply Hs.
    by_assoc Ht.
Qed.

(** One round of loop(): either it is still inside mqttReconnect() when the
    budget ends, or it went through the connect phase, the keepalive poll and
    the heartbeat test, with or without a heartbeat. *)
Lemma loop_shape (fuel : nat) (s : State) :
  match loop env b fuel s with
  | Returned _ s' =>
      exists rc, connect_phase b rc /\
        let t := clock_at env (millis_calls s) in
        let t' := clock_at env (S (millis_calls s)) in
        (u32_sub (to_u32 t) (last s) <= 5000 /\
         trace s' = trace s ++ rc ++ [MqttLoop; Millis t] /\
         last s' = last s /\ millis_calls s' = S (millis_calls s)) \/
        (5000 < u32_sub (to_u32 t) (last s) /\
         trace s' = trace s ++ rc ++
                      [MqttLoop; Millis t; Millis t';
                       MqttPublish "pinpilot/heartbeat" (DEVICE_NAME b)] /\
         last s' = to_u32 t' /\ millis_calls s' = S (S (millis_calls s)))
  | Blocked s' =>
      (forall i, (i <= fuel)%nat ->
                 connected_at env (connected_polls s + i) = false) /\
      exists r, reconnect_rounds b fuel r /\
        trace s' = trace s ++ MqttConnected false :: r /\
        same_timer s s'
  end.
Proof.
  unfold loop. straight_line.
  destruct (connected_at env (connected_polls s)) eqn:Hup; cbn [negb].
  - fields.
    destruct (5000 <? u32_sub (to_u32 (clock_at env (millis_calls s))) (last s))
      eqn:Hdue; fields.
    + apply Z.ltb_lt in Hdue. exists [MqttConnected true].
      split; [now left |]. right. repeat split; try assumption.
      repeat rewrite <- app_assoc. reflexivity.
    + apply Z.ltb_ge in Hdue. exists [MqttConnected true].
      split; [now left |]. left. repeat split; try assumption.
      repeat rewrite <- app_assoc. reflexivity.
  - match goal with
    | |- context [mqttReconnect env b fuel ?st] =>
        pose proof (mqttReconnect_shape fuel st) as H;
        destruct (mqttReconnect env b fuel st) as [[] s1 | s1]
    end; fields.
    + destruct H as (n & r & Hn & Hr & Ht & [Hl Hm] & Hlo & Hhi & _).
      rewrite Hl, Hm.
      destruct (5000 <? u32_sub (to_u32 (clock_at env (millis_calls s))) (last s))
        eqn:Hdue; fields.
      * apply Z.ltb_lt in Hdue.
        exists (MqttConnected false :: r ++ [MqttConnected true]).
        split; [right; now exists n, r |]. right.
        rewrite ?Hm. repeat split; try assumption. by_assoc Ht.
      * apply Z.ltb_ge in Hdue.
        exists (MqttConnected false :: r ++ [MqttConnected true]).
        split; [right; now exists n, r |]. left.
        rewrite ?Hm. repeat split; try assumption. by_assoc Ht.
    + destruct H as (r & Hr & Ht & Hs & Hlo & _).
      split.
      * intros i Hi.
        apply (shift_index (fun k => connected_at env k = false)
                 (connected_polls s) fuel Hup Hlo). lia.
      * exists r. repeat split; try assumption; try apply Hs. by_assoc Ht.
Qed.

End SketchFacts.

(** ** Counting events *)

Lemma count_app (p : Event -> bool) (a c : list Event) :
  count p (a ++ c) = (count p a + count p c)%nat.
Proof. unfold count. now rewrite filter_app, length_app. Qed.

Lemma count_cons (p : Event -> bool) (e : Event) (evs : list Event) :
  count p (e :: evs) = ((if p e then 1 else 0) + count p evs)%nat.
Proof. unfold count. cbn [filter]. now destruct (p e). Qed.

Lemma count_quiet (p : Event -> bool) (evs : list Event) :
  (forall e, quiet e = true -> p e = false) ->
  Forall (fun e => quiet e = true) evs -> count p evs = O.
Proof.
  intros Hp H. induction H as [| e evs He _ IH].
  - reflexivity.
  - rewrite count_cons, IH, (Hp e He). reflexivity.
Qed.

Lemma quiet_not_poll (e : Event) : quiet e = true -> is_poll e = false.
Proof. now destruct e. Qed.

Lemma quiet_not_heartbeat (e : Event) : quiet e = true -> is_heartbeat e = false.
Proof.
  destruct e; try reflexivity; try discriminate.
  unfold quiet. now destruct (is_heartbeat _).
Qed.

Lemma latest_millis_app (cur : Z) (a c : list Event) :
  latest_millis cur (a ++ c) = latest_millis (latest_millis cur a) c.
Proof.
  revert cur. induction a as [| e a IH]; intros cur; [reflexivity |].
  destruct e; cbn [app latest_millis]; apply IH.
Qed.

Lemma heartbeat_times_app (cur : Z) (a c : list Event) :
  heartbeat_times cur (a ++ c) =
  heartbeat_times cur a ++ heartbeat_times (latest_millis cur a) c.
Proof.
  revert cur. induction a as [| e a IH]; intros cur; [reflexivity |].
  destruct e; cbn [app latest_millis heartbeat_times]; try apply IH.
  destruct (is_heartbeat _); cbn [app]; now rewrite IH.
Qed.

Lemma latest_millis_quiet (cur : Z) (evs : list Event) :
  Forall (fun e => quiet e = true) evs -> latest_millis cur evs = cur.
Proof.
  intros H. induction H as [| e evs He _ IH]; [reflexivity |].
  destruct e; try discriminate; exact IH.
Qed.

Lemma heartbeat_times_quiet (cur : Z) (evs : list Event) :
  Forall (fun e => quiet e = true) evs -> heartbeat_times cur evs = [].
Proof.
  intros H. induction H as [| e evs He _ IH]; [reflexivity |].
  pose proof (quiet_not_heartbeat e He) as Hh.
  destruct e; try discriminate; cbn [heartbeat_times]; try exact IH.
  cbn [is_heartbeat] in Hh |- *. now rewrite Hh.
Qed.

(** ** What the rounds of the two waiting loops contain *)

Lemma reconnect_rounds_quiet (b : Build) (n : nat) (r : list Event) :
  reconnect_rounds b n r -> Forall (fun e => quiet e = true) r.
Proof.
  induction 1; repeat constructor; assumption.
Qed.

Lemma reconnect_rounds_allowed (b : Build) (n : nat) (r : list Event) :
  reconnect_rounds b n r -> Forall (allowed_publish b) r.
Proof.
  induction 1; repeat constructor; assumption.
Qed.

Lemma reconnect_rounds_counts (b : Build) (n : nat) (r : list Event) :
  reconnect_rounds b n r ->
  count is_connect r = n /\
  count is_online r = count is_connect_ok r /\
  count is_publish r = count is_connect_ok r /\
  count (is_delay 2000) r = count is_connect_failed r /\
  count is_any_delay r = count is_connect_failed r.
Proof.
  induction 1 as [| n rest _ IH | n rc rest _ IH].
  - repeat split.
  - destruct IH as (H1 & H2 & H3 & H4 & H5).
    repeat rewrite !count_cons. cbn.
    repeat split; congruence.
  - destruct IH as (H1 & H2 & H3 & H4 & H5).
    repeat rewrite !count_cons. cbn.
    repeat split; congruence.
Qed.

Lemma wifi_rounds_quiet (n : nat) (r : list Event) :
  wifi_rounds n r -> Forall (fun e => quiet e = true) r.
Proof.
  induction 1; repeat constructor; assumption.
Qed.

Lemma wifi_rounds_counts (n : nat) (r : list Event) :
  wifi_rounds n r ->
  count is_status_poll r = n /\
  count (is_delay 300) r = n /\
  count is_any_delay r = n /\
  count is_publish r = O /\
  count is_connect_ok r = O /\
  count is_pin_op r = O.
Proof.
  induction 1 as [| n code rest _ _ IH].
  - repeat split.
  - destruct IH as (H1 & H2 & H3 & H4 & H5 & H6).
    repeat rewrite !count_cons. cbn.
    repeat split; congruence.
Qed.

Lemma wifi_rounds_allowed (b : Build) (n : nat) (r : list Event) :
  wifi_rounds n r -> Forall (allowed_publish b) r.
Proof.
  induction 1; repeat constructor; assumption.
Qed.

Lemma connect_phase_quiet (b : Build) (rc : list Event) :
  connect_phase b rc -> Forall (fun e => quiet e = true) rc.
Proof.
  intros [-> | (n & r & Hr & ->)].
  - repeat constructor.
  - constructor; [reflexivity |].
    apply Forall_app. split.
    + eapply reconnect_rounds_quiet, Hr.
    + repeat constructor.
Qed.

Lemma connects_within_not_blocked (env : Env) (s : State) (fuel : nat) :
  connects_within env s fuel ->
  ~ (forall i, (i <= fuel)%nat ->
               connected_at env (connected_polls s + i) = false).
Proof.
  intros (n & Hn & Hup) Hdown. rewrite (Hdown n Hn) in Hup. discriminate.
Qed.

(** ** The heartbeat test of loop() *)

(** C1 (as amended): every round of loop() that gets past the connect phase
    (the client is up at entry, or mqttReconnect() returns within its
    budget) returns.  When the 32-bit elapsed time since [last] is strictly
    more than 5000 ms it publishes exactly one heartbeat carrying the device
    name, after the keepalive poll, and resets [last] to a fresh reading of
    [millis()]; when the elapsed time is 5000 ms or less, 5000 ms itself
    included, it publishes no heartbeat and leaves [last] as it was. *)
Theorem loop_heartbeat_iff_overdue
    (env : Env) (b : Build) (fuel : nat) (s : State) :
  connects_within env s fuel ->
  exists s' rc,
    loop env b fuel s = Returned tt s' /\
    connect_phase b rc /\
    (5000 < u32_sub (to_u32 (clock_at env (millis_calls s))) (last s) ->
     trace s' = trace s ++ rc ++
                  [MqttLoop; Millis (clock_at env (millis_calls s));
                   Millis (clock_at env (S (millis_calls s)));
                   MqttPublish "pinpilot/heartbeat" (DEVICE_NAME b)] /\
     count is_heartbeat
       (rc ++ [MqttLoop; Millis (clock_at env (millis_calls s));
               Millis (clock_at env (S (millis_calls s)));
               MqttPublish "pinpilot/heartbeat" (DEVICE_NAME b)]) = 1%nat /\
     last s' = to_u32 (clock_at env (S (millis_calls s)))) /\
    (u32_sub (to_u32 (clock_at env (millis_calls s))) (last s) <= 5000 ->
     trace s' = trace s ++ rc ++
                  [MqttLoop; Millis (clock_at env (millis_calls s))] /\
     count is_heartbeat
       (rc ++ [MqttLoop; Millis (clock_at env (millis_calls s))]) = 0%nat /\
     last s' = last s).
Proof.
  intros Hup. pose proof (loop_shape env b fuel s) as H.
  destruct (loop env b fuel s) as [[] s' | s'].
  - destruct H as (rc & Hrc & H).
    pose proof (count_quiet is_heartbeat rc quiet_not_heartbeat
                  (connect_phase_quiet b rc Hrc)) as Hnone.
    exists s', rc. split; [reflexivity |]. split; [exact Hrc |].
    destruct H as [(Hle & Ht & Hl & _) | (Hgt & Ht & Hl & _)].
    + split; [intros Hgt; lia |]. intros _.
      rewrite count_app, Hnone. now repeat split.
    + split; [| intros Hle; lia]. intros _.
      rewrite count_app, Hnone. now repeat split.
  - destruct H as (Hdown & _).
    now apply connects_within_not_blocked in Hup.
Qed.

(** C1, the claim as it stands: at an elapsed time of exactly 5000 ms the
    round of loop() returns without any heartbeat and leaves [last] alone. *)
Lemma loop_silent_at_exactly_5000 :
  u32_sub (to_u32 (clock_at edge_env (millis_calls boot))) (last boot) = 5000 /\
  loop edge_env default_build 1 boot =
    Returned tt (mkState 0 0 1 0 0 1 [MqttConnected true; MqttLoop; Millis 5000]) /\
  count is_heartbeat [MqttConnected true; MqttLoop; Millis 5000] = 0%nat.
Proof. repeat split. Qed.

Lemma loop_heartbeat_iff_overdue_witness :
  connects_within wrap_env boot 1 /\
  exists s' rc,
    loop wrap_env full_build 1 boot = Returned tt s' /\
    connect_phase full_build rc /\
    (5000 < u32_sub (to_u32 (clock_at wrap_env (millis_calls boot))) (last boot) ->
     trace s' = trace boot ++ rc ++
                  [MqttLoop; Millis (clock_at wrap_env (millis_calls boot));
                   Millis (clock_at wrap_env (S (millis_calls boot)));
                   MqttPublish "pinpilot/heartbeat" (DEVICE_NAME full_build)] /\
     count is_heartbeat
       (rc ++ [MqttLoop; Millis (clock_at wrap_env (millis_calls boot));
               Millis (clock_at wrap_env (S (millis_calls boot)));
               MqttPublish "pinpilot/heartbeat" (DEVICE_NAME full_build)]) = 1%nat /\
     last s' = to_u32 (clock_at wrap_env (S (millis_calls boot)))) /\
    (u32_sub (to_u32 (clock_at wrap_env (millis_calls boot))) (last boot) <= 5000 ->
     trace s' = trace boot ++ rc ++
                  [MqttLoop; Millis (clock_at wrap_env (millis_calls boot))] /\
     count is_heartbeat
       (rc ++ [MqttLoop; Millis (clock_at wrap_env (millis_calls boot))]) = 0%nat /\
     last s' = last boot).
Proof.
  assert (Hup : connects_within wrap_env boot 1).
  { exists O. split; [lia | reflexivity]. }
  split; [exact Hup |].
  exact (loop_heartbeat_iff_overdue wrap_env full_build 1 boot Hup).
Defined.

(** C5: in a round of loop() in which the 32-bit elapsed time since [last]
    is below 5000 ms, no heartbeat is published and [last] is unchanged,
    whether the round returns or stays inside mqttReconnect(). *)
Theorem loop_no_heartbeat_below_threshold
    (env : Env) (b : Build) (fuel : nat) (s : State) :
  u32_sub (to_u32 (clock_at env (millis_calls s))) (last s) < 5000 ->
  last (state_of (loop env b fuel s)) = last s /\
  exists evs,
    trace (state_of (loop env b fuel s)) = trace s ++ evs /\
    count is_heartbeat evs = 0%nat.
Proof.
  intros Hlt. pose proof (loop_shape env b fuel s) as H.
  destruct (loop env b fuel s) as [[] s' | s']; cbn [state_of].
  - destruct H as (rc & Hrc & [(_ & Ht & Hl & _) | (Hgt & _)]); [| lia].
    split; [exact Hl |]. eexists. split; [exact Ht |].
    rewrite count_app.
    rewrite (count_quiet is_heartbeat rc quiet_not_heartbeat
               (connect_phase_quiet b rc Hrc)).
    reflexivity.
  - destruct H as (_ & r & Hr & Ht & Hl & _).
    split; [exact Hl |]. eexists. split; [exact Ht |].
    rewrite count_cons. cbn.
    apply (count_quiet is_heartbeat r quiet_not_heartbeat).
    eapply reconnect_rounds_quiet, Hr.
Qed.

Lemma loop_no_heartbeat_below_threshold_witness :
  last (state_of (loop calm_env default_build 5 boot)) = last boot /\
  exists evs,
    trace (state_of (loop calm_env default_build 5 boot)) = trace boot ++ evs /\
    count is_heartbeat evs = 0%nat.
Proof.
  apply (loop_no_heartbeat_below_threshold calm_env default_build 5 boot).
  reflexivity.
Defined.

(** C10: the heartbeat test subtracts two 32-bit readings modulo 2^32.  When
    [last] holds the reading taken at true time [t0] and the true time now is
    less than 2^32 ms later, the difference the sketch computes is the true
    elapsed time, also when the counter wrapped in between; so a round of
    loop() that gets past the connect phase publishes a heartbeat exactly
    when more than 5000 ms of true time have passed. *)
Theorem heartbeat_test_across_wraparound
    (env : Env) (b : Build) (fuel : nat) (s : State) (t0 : Z) :
  last s = to_u32 t0 ->
  0 <= clock_at env (millis_calls s) - t0 < U32 ->
  connects_within env s fuel ->
  u32_sub (to_u32 (clock_at env (millis_calls s))) (last s) =
    clock_at env (millis_calls s) - t0 /\
  exists s' evs,
    loop env b fuel s = Returned tt s' /\
    trace s' = trace s ++ evs /\
    count is_heartbeat evs =
      (if 5000 <? clock_at env (millis_calls s) - t0 then 1%nat else 0%nat).
Proof.
  intros Hl Hgap Hup.
  assert (Hd : u32_sub (to_u32 (clock_at env (millis_calls s))) (last s) =
               clock_at env (millis_calls s) - t0)
    by (rewrite Hl; now apply u32_sub_small).
  split; [exact Hd |].
  pose proof (loop_shape env b fuel s) as H.
  destruct (loop env b fuel s) as [[] s' | s'].
  - cbv zeta in H. rewrite Hd in H.
    destruct H as (rc & Hrc & [(Hle & Ht & _) | (Hgt & Ht & _)]);
      exists s'; eexists; (split; [reflexivity |]); (split; [exact Ht |]);
      rewrite count_app,
        (count_quiet is_heartbeat rc quiet_not_heartbeat
           (connect_phase_quiet b rc Hrc)).
    + apply Z.ltb_ge in Hle. now rewrite Hle.
    + apply Z.ltb_lt in Hgt. now rewrite Hgt.
  - destruct H as (Hdown & _).
    now apply connects_within_not_blocked in Hup.
Qed.

Lemma heartbeat_test_across_wraparound_witness :
  to_u32 (clock_at wrap_env 2) = 5000 /\
  u32_sub (to_u32 (clock_at wrap_env 2)) 4294966296 = 6000 /\
  exists s' evs,
    loop wrap_env full_build 1 (mkState 4294966296 0 0 0 0 2 []) =
      Returned tt s' /\
    trace s' = [] ++ evs /\ count is_heartbeat evs = 1%nat.
Proof.
  split; [reflexivity |].
  refine (heartbeat_test_across_wraparound wrap_env full_build 1
            (mkState 4294966296 0 0 0 0 2 []) 4294966296 _ _ _).
  - reflexivity.
  - vm_compute. split; [discriminate | reflexivity].
  - exists O. split; [lia | reflexivity].
Defined.

(** ** The two waiting loops *)

Lemma first_index_unique (P : nat -> Prop) (n m : nat) :
  (forall i, (i < n)%nat -> ~ P i) -> P n ->
  (forall i, (i < m)%nat -> ~ P i) -> P m ->
  n = m.
Proof.
  intros Hn Pn Hm Pm.
  destruct (Nat.lt_trichotomy n m) as [Hlt | [Heq | Hgt]].
  - now destruct (Hm n Hlt).
  - exact Heq.
  - now destruct (Hn m Hgt).
Qed.

Lemma count_ok_results (evs : list Event) :
  count is_connect_ok evs = List.length (filter (fun ok => ok) (connect_results evs)).
Proof.
  induction evs as [| e evs IH]; [reflexivity |].
  rewrite count_cons.
  destruct e; cbn [is_connect_ok connect_results]; try exact IH.
  destruct ok; cbn [filter List.length]; now rewrite IH.
Qed.

Lemma count_failed_results (evs : list Event) :
  count is_connect_failed evs = List.length (filter negb (connect_results evs)).
Proof.
  induction evs as [| e evs IH]; [reflexivity |].
  rewrite count_cons.
  destruct e; cbn [is_connect_failed connect_results]; try exact IH.
  destruct ok; cbn [filter negb List.length]; now rewrite IH.
Qed.

Lemma results_first_success (f : nat -> bool) (k n : nat) :
  (forall i, (i < n)%nat -> f (k + i)%nat = false) ->
  f (k + n)%nat = true ->
  map (fun i => f (k + i)%nat) (seq 0 (S n)) = repeat false n ++ [true].
Proof.
  intros Hlo Hhi. rewrite seq_S, map_app. cbn [map Nat.add]. rewrite Hhi.
  f_equal. clear Hhi. induction n as [| n IH]; [reflexivity |].
  rewrite seq_S, map_app. cbn [map Nat.add].
  rewrite IH by (intros i Hi; apply Hlo; lia).
  rewrite (Hlo n) by lia.
  cbn [repeat]. symmetry. apply repeat_cons.
Qed.

Lemma filter_id_failures (n : nat) :
  filter (fun ok : bool => ok) (repeat false n ++ [true]) = [true].
Proof. induction n as [| n IH]; [reflexivity | exact IH]. Qed.

Lemma filter_negb_failures (n : nat) :
  List.length (filter negb (repeat false n ++ [true])) = n.
Proof. induction n as [| n IH]; [reflexivity | cbn; now rewrite IH]. Qed.

(** C2 (as amended): mqttReconnect() polls mqtt.connected() and, while the
    client is reported down, attempts a connect under the device name; every
    successful connect is followed by exactly one "online" publish and every
    failed one by a wait of 2000 ms, after which the status is polled again.
    The call returns at the first poll that reports the client up: after
    [n] rounds when that is poll [n].  When no poll ever reports the client
    up the call never returns: it is still in the loop after as many rounds
    as any budget allows, so no number of retries ends it.  In particular,
    when the first accepted connect is attempt [n] and the next poll reports
    the client up, the call returns after exactly one "online" publish and
    [n] waits. *)
Theorem mqttReconnect_retries_until_up (env : Env) (b : Build) (s : State) :
  (forall n fuel,
     (forall i, (i < n)%nat ->
                connected_at env (connected_polls s + i) = false) ->
     connected_at env (connected_polls s + n) = true ->
     (n < fuel)%nat ->
     exists s' r,
       mqttReconnect env b fuel s = Returned tt s' /\
       reconnect_rounds b n r /\
       trace s' = trace s ++ r ++ [MqttConnected true] /\
       count is_connect r = n /\
       count is_online r = count is_connect_ok r /\
       count (is_delay 2000) r = count is_connect_failed r) /\
  (forall fuel,
     (forall i, connected_at env (connected_polls s + i) = false) ->
     exists s' r,
       mqttReconnect env b fuel s = Blocked s' /\
       reconnect_rounds b fuel r /\
       trace s' = trace s ++ r /\
       count is_connect r = fuel) /\
  (forall n fuel,
     (forall i, (i <= n)%nat ->
                connected_at env (connected_polls s + i) = false) ->
     connected_at env (connected_polls s + S n) = true ->
     (forall i, (i < n)%nat -> connect_at env (connect_calls s + i) = false) ->
     connect_at env (connect_calls s + n) = true ->
     (S n < fuel)%nat ->
     exists s' r,
       mqttReconnect env b fuel s = Returned tt s' /\
       trace s' = trace s ++ r ++ [MqttConnected true] /\
       count is_online r = 1%nat /\
       count (is_delay 2000) r = n).
Proof.
  assert (Hret : forall n fuel,
     (forall i, (i < n)%nat ->
                connected_at env (connected_polls s + i) = false) ->
     connected_at env (connected_polls s + n) = true ->
     (n < fuel)%nat ->
     exists s' r,
       mqttReconnect env b fuel s = Returned tt s' /\
       reconnect_rounds b n r /\
       trace s' = trace s ++ r ++ [MqttConnected true] /\
       connect_results r =
         map (fun i => connect_at env (connect_calls s + i)) (seq 0 n)).
  { intros n fuel Hlo Hhi Hfuel.
    pose proof (mqttReconnect_shape env b fuel s) as H.
    destruct (mqttReconnect env b fuel s) as [[] s' | s'].
    - destruct H as (m & r & _ & Hr & Ht & _ & Hlo' & Hhi' & Hres).
      assert (n = m) as <-.
      { apply (first_index_unique
                 (fun i => connected_at env (connected_polls s + i) = true));
          try assumption; intros i Hi Hc.
        - rewrite (Hlo i Hi) in Hc. discriminate.
        - rewrite (Hlo' i Hi) in Hc. discriminate. }
      now exists s', r.
    - destruct H as (_ & _ & _ & _ & Hdown & _).
      rewrite (Hdown n Hfuel) in Hhi. discriminate. }
  split; [| split].
  - intros n fuel Hlo Hhi Hfuel.
    destruct (Hret n fuel Hlo Hhi Hfuel) as (s' & r & Hrun & Hr & Ht & _).
    destruct (reconnect_rounds_counts b n r Hr) as (Hc & Ho & _ & Hd & _).
    now exists s', r.
  - intros fuel Hdown.
    pose proof (mqttReconnect_shape env b fuel s) as H.
    destruct (mqttReconnect env b fuel s) as [[] s' | s'].
    + destruct H as (m & r & _ & _ & _ & _ & _ & Hhi & _).
      rewrite Hdown in Hhi. discriminate.
    + destruct H as (r & Hr & Ht & _).
      destruct (reconnect_rounds_counts b fuel r Hr) as (Hc & _).
      now exists s', r.
  - intros n fuel Hlo Hhi Hfail Hok Hfuel.
    destruct (Hret (S n) fuel) as (s' & r & Hrun & Hr & Ht & Hres);
      try assumption.
    { intros i Hi. apply Hlo. lia. }
    destruct (reconnect_rounds_counts b (S n) r Hr) as (_ & Ho & _ & Hd & _).
    rewrite (results_first_success (connect_at env) (connect_calls s) n Hfail Hok)
      in Hres.
    exists s', r. repeat split; try assumption.
    + now rewrite Ho, count_ok_results, Hres, filter_id_failures.
    + now rewrite Hd, count_failed_results, Hres, filter_negb_failures.
Qed.

(** C2, the claim as it stands: the broker accepts every connect, but the
    client reports the connection lost again right after the first one.  One
    call of mqttReconnect() then connects twice and publishes "online" twice
    before it returns. *)
Lemma mqttReconnect_may_publish_online_twice :
  mqttReconnect flaky_env default_build 3 boot =
    Returned tt
      (mkState 0 0 3 2 0 0
         [MqttConnected false; SerialPrint "MQTT connecting...";
          MqttConnect "pinpilot_device" true; SerialPrintln "connected";
          MqttPublish "pinpilot/status" "online";
          MqttConnected false; SerialPrint "MQTT connecting...";
          MqttConnect "pinpilot_device" true; SerialPrintln "connected";
          MqttPublish "pinpilot/status" "online";
          MqttConnected true]) /\
  count is_online
    (trace (state_of (mqttReconnect flaky_env default_build 3 boot))) = 2%nat.
Proof. split; vm_compute; reflexivity. Qed.

Lemma mqttReconnect_retries_until_up_witness :
  (exists s' r,
     mqttReconnect calm_env default_build 4 boot = Returned tt s' /\
     trace s' = trace boot ++ r ++ [MqttConnected true] /\
     count is_online r = 1%nat /\
     count (is_delay 2000) r = 1%nat) /\
  (exists s' r,
     mqttReconnect dead_env default_build 7 boot = Blocked s' /\
     reconnect_rounds default_build 7 r /\
     trace s' = trace boot ++ r /\
     count is_connect r = 7%nat).
Proof.
  split.
  - apply (proj2 (proj2 (mqttReconnect_retries_until_up
                           calm_env default_build boot)) 1%nat 4%nat).
    + intros [| [| i]] Hi; (reflexivity || lia).
    + reflexivity.
    + intros [| i] Hi; (reflexivity || lia).
    + reflexivity.
    + lia.
  - apply (proj1 (proj2 (mqttReconnect_retries_until_up
                           dead_env default_build boot)) 7%nat).
    intros i. reflexivity.
Defined.

(** C7: connectWiFi() polls WiFi.status() with a wait of 300 ms between two
    polls and returns exactly when a poll reports WL_CONNECTED: after [n]
    waits when that is poll [n], and only then.  There is no timeout: when
    no poll ever reports WL_CONNECTED the call is still polling at the end of
    every budget, that is, it never returns. *)
Theorem connectWiFi_returns_iff_associated (env : Env) (s : State) :
  (forall n fuel,
     (forall i, (i < n)%nat ->
                wifi_status_at env (status_polls s + i) <> WL_CONNECTED) ->
     wifi_status_at env (status_polls s + n) = WL_CONNECTED ->
     (n < fuel)%nat ->
     exists s' r,
       connectWiFi env fuel s = Returned tt s' /\
       wifi_rounds n r /\
       trace s' = trace s ++ WiFiMode WIFI_STA :: WiFiBegin WIFI_SSID WIFI_PASS ::
                    r ++ [WiFiStatus WL_CONNECTED;
                          SerialPrintln (String "010"%char "WiFi connected")] /\
       count is_status_poll r = n /\
       count (is_delay 300) r = n /\
       count is_any_delay r = n) /\
  (forall fuel,
     (forall i, wifi_status_at env (status_polls s + i) <> WL_CONNECTED) ->
     exists s' r,
       connectWiFi env fuel s = Blocked s' /\
       wifi_rounds fuel r /\
       trace s' = trace s ++ WiFiMode WIFI_STA :: WiFiBegin WIFI_SSID WIFI_PASS :: r /\
       count is_status_poll r = fuel) /\
  (forall fuel s',
     connectWiFi env fuel s = Returned tt s' ->
     exists n, (n < fuel)%nat /\
               wifi_status_at env (status_polls s + n) = WL_CONNECTED).
Proof.
  split; [| split].
  - intros n fuel Hlo Hhi Hfuel.
    pose proof (connectWiFi_shape env fuel s) as H.
    destruct (connectWiFi env fuel s) as [[] s' | s'].
    + destruct H as (m & r & _ & Hr & Ht & _ & Hlo' & Hhi').
      assert (n = m) as <-.
      { now apply (first_index_unique
                 (fun i => wifi_status_at env (status_polls s + i) = WL_CONNECTED)). }
      destruct (wifi_rounds_counts n r Hr) as (Hc & Hd & Ha & _).
      now exists s', r.
    + destruct H as (_ & _ & _ & _ & Hdown).
      now destruct (Hdown n Hfuel).
  - intros fuel Hdown.
    pose proof (connectWiFi_shape env fuel s) as H.
    destruct (connectWiFi env fuel s) as [[] s' | s'].
    + destruct H as (m & _ & _ & _ & _ & _ & _ & Hhi).
      now destruct (Hdown m).
    + destruct H as (r & Hr & Ht & _).
      destruct (wifi_rounds_counts fuel r Hr) as (Hc & _).
      now exists s', r.
  - intros fuel s' Hrun.
    pose proof (connectWiFi_shape env fuel s) as H. rewrite Hrun in H.
    destruct H as (n & _ & Hn & _ & _ & _ & _ & Hhi).
    now exists n.
Qed.

Lemma connectWiFi_returns_iff_associated_witness :
  (exists s' r,
     connectWiFi calm_env 3 boot = Returned tt s' /\
     wifi_rounds 2 r /\
     trace s' = trace boot ++ WiFiMode WIFI_STA :: WiFiBegin WIFI_SSID WIFI_PASS ::
                  r ++ [WiFiStatus WL_CONNECTED;
                        SerialPrintln (String "010"%char "WiFi connected")] /\
     count is_status_poll r = 2%nat /\
     count (is_delay 300) r = 2%nat /\
     count is_any_delay r = 2%nat) /\
  (exists s' r,
     connectWiFi dead_env 9 boot = Blocked s' /\
     wifi_rounds 9 r /\
     trace s' = trace boot ++ WiFiMode WIFI_STA :: WiFiBegin WIFI_SSID WIFI_PASS :: r /\
     count is_status_poll r = 9%nat).
Proof.
  split.
  - apply (proj1 (connectWiFi_returns_iff_associated calm_env boot) 2%nat 3%nat).
    + intros [| [| i]] Hi; (discriminate || lia).
    + reflexivity.
    + lia.
  - apply (proj1 (proj2 (connectWiFi_returns_iff_associated dead_env boot)) 9%nat).
    intros i. discriminate.
Defined.

(** C8: mqttReconnect() does not touch the heartbeat timer.  Whether it
    returns or stays in its loop, [last] and the number of [millis()]
    readings are what they were at its entry; and the timer state a round of
    loop() leaves behind is the same in any two worlds with the same clock,
    whatever the connection did in each of them. *)
Theorem mqttReconnect_keeps_timer (env : Env) (b : Build) (fuel : nat) (s : State) :
  last (state_of (mqttReconnect env b fuel s)) = last s /\
  millis_calls (state_of (mqttReconnect env b fuel s)) = millis_calls s /\
  forall env' s1 s2,
    (forall k, clock_at env' k = clock_at env k) ->
    loop env b fuel s = Returned tt s1 ->
    loop env' b fuel s = Returned tt s2 ->
    last s2 = last s1 /\ millis_calls s2 = millis_calls s1.
Proof.
  split; [| split].
  - pose proof (mqttReconnect_shape env b fuel s) as H.
    destruct (mqttReconnect env b fuel s) as [[] s' | s']; cbn [state_of].
    + destruct H as (n & r & _ & _ & _ & [Hl _] & _). exact Hl.
    + destruct H as (r & _ & _ & [Hl _] & _). exact Hl.
  - pose proof (mqttReconnect_shape env b fuel s) as H.
    destruct (mqttReconnect env b fuel s) as [[] s' | s']; cbn [state_of].
    + destruct H as (n & r & _ & _ & _ & [_ Hm] & _). exact Hm.
    + destruct H as (r & _ & _ & [_ Hm] & _). exact Hm.
  - intros env' s1 s2 Hclock Hrun1 Hrun2.
    pose proof (loop_shape env b fuel s) as H1. rewrite Hrun1 in H1.
    pose proof (loop_shape env' b fuel s) as H2. rewrite Hrun2 in H2.
    cbv zeta in H1, H2. rewrite !Hclock in H2.
    destruct H1 as (rc1 & _ & [(Hle1 & _ & Hl1 & Hm1) | (Hgt1 & _ & Hl1 & Hm1)]);
      destruct H2 as (rc2 & _ & [(Hle2 & _ & Hl2 & Hm2) | (Hgt2 & _ & Hl2 & Hm2)]);
      try lia; split; congruence.
Qed.

Lemma mqttReconnect_keeps_timer_witness :
  last (state_of (mqttReconnect calm_env full_build 4 (mkState 7500 3 1 0 0 4 []))) = 7500 /\
  millis_calls (state_of (mqttReconnect calm_env full_build 4 (mkState 7500 3 1 0 0 4 []))) = 4%nat.
Proof.
  split.
  - apply (proj1 (mqttReconnect_keeps_timer calm_env full_build 4
                    (mkState 7500 3 1 0 0 4 []))).
  - apply (proj1 (proj2 (mqttReconnect_keeps_timer calm_env full_build 4
                           (mkState 7500 3 1 0 0 4 [])))).
Defined.

(** ** What setup() does to the state *)

Lemma boot_step_refl (s : State) : boot_step s s.
Proof.
  split; [apply same_timer_refl |].
  apply grows_refl. constructor.
Qed.

Lemma boot_step_trans (s1 s2 s3 : State) :
  boot_step s1 s2 -> boot_step s2 s3 -> boot_step s1 s3.
Proof.
  intros [Ht1 Hg1] [Ht2 Hg2]. split.
  - eapply same_timer_trans; eassumption.
  - eapply grows_trans; try eassumption.
    intros a c Ha Hc. apply Forall_app. now split.
Qed.

Lemma boot_step_emit (e : Event) :
  boot_event e = true -> respects boot_step (emit e).
Proof.
  intros He s. split.
  - split; reflexivity.
  - exists [e]. split; [reflexivity |]. now constructor.
Qed.

Lemma boot_step_status (env : Env) : respects boot_step (WiFi_status env).
Proof.
  intros s. split.
  - split; reflexivity.
  - eexists. split; [reflexivity |]. now constructor.
Qed.

Lemma boot_step_connectWiFi (env : Env) (fuel : nat) :
  respects boot_step (connectWiFi env fuel).
Proof.
  unfold connectWiFi.
  repeat first
    [ apply (respects_bind boot_step boot_step_trans); [| intros ?]
    | apply (respects_while boot_step boot_step_refl boot_step_trans)
    | apply (respects_ret boot_step boot_step_refl)
    | apply boot_step_status
    | apply boot_step_emit; reflexivity ].
Qed.

Lemma boot_step_setup (env : Env) (b : Build) (fuel : nat) :
  respects boot_step (setup env b fuel).
Proof.
  unfold setup, ifdef_pin.
  destruct (EPAPER_SPI_2P13_CS b), (WS2812_DIN b);
  repeat first
    [ apply boot_step_connectWiFi
    | apply (respects_bind boot_step boot_step_trans); [| intros ?]
    | apply (respects_ret boot_step boot_step_refl)
    | apply boot_step_emit; reflexivity ].
Qed.

Lemma boot_events_quiet (evs : list Event) :
  Forall (fun e => boot_event e = true) evs ->
  Forall (fun e => quiet e = true) evs.
Proof.
  apply Forall_impl. intros e He. now destruct e.
Qed.

Lemma boot_events_publish_ok (b : Build) (evs : list Event) :
  Forall (fun e => boot_event e = true) evs -> publishes_ok b evs.
Proof.
  intros H. split.
  - revert H. apply Forall_impl. intros e He. now destruct e.
  - induction H as [| e evs He _ IH]; [reflexivity |].
    rewrite !count_cons, IH. now destruct e.
Qed.

(** ** What the firmware publishes *)

Lemma publishes_ok_nil (b : Build) : publishes_ok b [].
Proof. split; [constructor | reflexivity]. Qed.

Lemma publishes_ok_app (b : Build) (a c : list Event) :
  publishes_ok b a -> publishes_ok b c -> publishes_ok b (a ++ c).
Proof.
  intros [Ha Hca] [Hc Hcc]. split.
  - apply Forall_app. now split.
  - rewrite !count_app. congruence.
Qed.

Lemma publishes_ok_rounds (b : Build) (n : nat) (r : list Event) :
  reconnect_rounds b n r -> publishes_ok b r.
Proof.
  intros Hr. split.
  - eapply reconnect_rounds_allowed, Hr.
  - now destruct (reconnect_rounds_counts b n r Hr) as (_ & Ho & _).
Qed.

Lemma publishes_ok_connect_phase (b : Build) (rc : list Event) :
  connect_phase b rc -> publishes_ok b rc.
Proof.
  intros [-> | (n & r & Hr & ->)].
  - split; [repeat constructor | reflexivity].
  - apply (publishes_ok_app b [MqttConnected false]).
    + split; [repeat constructor | reflexivity].
    + apply publishes_ok_app; [eapply publishes_ok_rounds, Hr |].
      split; [repeat constructor | reflexivity].
Qed.

Lemma publishes_ok_setup (env : Env) (b : Build) (fuel : nat) :
  respects (grows (publishes_ok b)) (setup env b fuel).
Proof.
  intros s. destruct (boot_step_setup env b fuel s) as [_ (evs & Ht & Hev)].
  exists evs. split; [exact Ht |]. now apply boot_events_publish_ok.
Qed.

Lemma publishes_ok_loop (env : Env) (b : Build) (fuel : nat) :
  respects (grows (publishes_ok b)) (loop env b fuel).
Proof.
  intros s. pose proof (loop_shape env b fuel s) as H.
  destruct (loop env b fuel s) as [[] s' | s']; cbn [state_of].
  - destruct H as (rc & Hrc & [(_ & Ht & _) | (_ & Ht & _)]);
      eexists; (split; [exact Ht |]);
      (apply publishes_ok_app; [now apply publishes_ok_connect_phase |]).
    + split; [repeat constructor | reflexivity].
    + split; [| reflexivity].
      repeat (apply Forall_cons; [exact I |]).
      apply Forall_cons; [right; now split | constructor].
  - destruct H as (_ & r & Hr & Ht & _).
    eexists. split; [exact Ht |].
    apply (publishes_ok_app b [MqttConnected false]).
    + split; [repeat constructor | reflexivity].
    + eapply publishes_ok_rounds, Hr.
Qed.

(** C6: whatever the world answers and however far the firmware has run,
    every message it has published is either "online" on pinpilot/status or
    the device name on pinpilot/heartbeat, and "online" has been published
    exactly as often as a connect to the broker succeeded. *)
Theorem firmware_publishes_two_topics
    (env : Env) (b : Build) (fuel n : nat) :
  Forall (allowed_publish b) (trace (state_of (firmware env b fuel n boot))) /\
  count is_online (trace (state_of (firmware env b fuel n boot))) =
  count is_connect_ok (trace (state_of (firmware env b fuel n boot))).
Proof.
  assert (H : respects (grows (publishes_ok b)) (firmware env b fuel n)).
  { unfold firmware.
    apply respects_bind.
    - apply grows_trans, publishes_ok_app.
    - apply publishes_ok_setup.
    - intros _. apply respects_repeat.
      + apply grows_refl, publishes_ok_nil.
      + apply grows_trans, publishes_ok_app.
      + apply publishes_ok_loop. }
  destruct (H boot) as (evs & Ht & Hev).
  rewrite Ht. exact Hev.
Qed.

Lemma firmware_publishes_two_topics_witness :
  Forall (allowed_publish full_build)
         (trace (state_of (firmware calm_env full_build 4 6 boot))) /\
  count is_online (trace (state_of (firmware calm_env full_build 4 6 boot))) =
  count is_connect_ok (trace (state_of (firmware calm_env full_build 4 6 boot))).
Proof.
  exact (firmware_publishes_two_topics calm_env full_build 4 6).
Defined.

(** ** The order of a round of loop() *)

(** C4: every round of loop() services the keepalive poll exactly once,
    unless it never gets out of mqttReconnect().  When mqtt.connected()
    reports the client up at the entry of the round, the round returns,
    whatever the budget, with the one keepalive poll right after the status
    poll.  When it reports the client down, mqttReconnect() is run right
    after that poll of the status: if it returns, the round returns too, with
    the events of mqttReconnect() first, then the one keepalive poll, then
    the heartbeat test; if it does not, the round makes no keepalive poll and
    publishes no heartbeat at all. *)
Theorem loop_reconnects_before_poll
    (env : Env) (b : Build) (fuel : nat) (s : State) :
  (forall s3,
     loop env b fuel s = Returned tt s3 ->
     exists evs, trace s3 = trace s ++ evs /\ count is_poll evs = 1%nat) /\
  (forall s1,
     mqtt_connected env s = Returned false s1 ->
     trace s1 = trace s ++ [MqttConnected false] /\
     (forall s2,
        mqttReconnect env b fuel s1 = Returned tt s2 ->
        exists s3 rc hb,
          loop env b fuel s = Returned tt s3 /\
          trace s2 = trace s1 ++ rc /\
          trace s3 = trace s2 ++ MqttLoop :: hb /\
          count is_poll rc = 0%nat /\ count is_heartbeat rc = 0%nat /\
          count is_poll hb = 0%nat) /\
     (forall s2,
        mqttReconnect env b fuel s1 = Blocked s2 ->
        loop env b fuel s = Blocked s2 /\
        exists rc,
          trace s2 = trace s1 ++ rc /\
          count is_poll rc = 0%nat /\ count is_heartbeat rc = 0%nat)) /\
  (forall s1,
     mqtt_connected env s = Returned true s1 ->
     trace s1 = trace s ++ [MqttConnected true] /\
     exists s3 hb,
       loop env b fuel s = Returned tt s3 /\
       trace s3 = trace s1 ++ MqttLoop :: hb /\
       count is_poll hb = 0%nat /\
       count is_poll ([MqttConnected true] ++ MqttLoop :: hb) = 1%nat).
Proof.
  split; [| split].
  - intros s3 Hrun. pose proof (loop_shape env b fuel s) as H.
    rewrite Hrun in H.
    destruct H as (rc & Hrc & [(_ & Ht & _) | (_ & Ht & _)]);
      eexists; (split; [exact Ht |]);
      rewrite count_app,
        (count_quiet is_poll rc quiet_not_poll (connect_phase_quiet b rc Hrc));
      reflexivity.
  - intros s1 Hentry. unfold mqtt_connected in Hentry.
    injection Hentry as Hup Hs1. rewrite Hup in Hs1. subst s1.
    split; [reflexivity |].
    pose proof (mqttReconnect_shape env b fuel
                  (log (MqttConnected false) (next_connected s))) as H.
    split; intros s2 Hrec; rewrite Hrec in H.
    + destruct H as (n & r & _ & Hr & Ht & _).
      assert (Hq : Forall (fun e => quiet e = true) (r ++ [MqttConnected true])).
      { apply Forall_app. split.
        - eapply reconnect_rounds_quiet, Hr.
        - repeat constructor. }
      unfold loop. unfold bind at 1. unfold mqtt_connected at 1.
      cbv zeta. rewrite Hup. cbn [negb]. unfold bind at 1. rewrite Hrec.
      straight_line.
      destruct (5000 <? _); eexists; exists (r ++ [MqttConnected true]);
        eexists; (split; [reflexivity |]); (split; [exact Ht |]); fields;
        (split; [repeat first [rewrite <- app_assoc | progress cbn [app]];
                 reflexivity |]);
        (split; [now apply (count_quiet is_poll _ quiet_not_poll) |]);
        (split; [now apply (count_quiet is_heartbeat _ quiet_not_heartbeat) |]);
        reflexivity.
    + destruct H as (r & Hr & Ht & _).
      split.
      * unfold loop. unfold bind at 1. unfold mqtt_connected at 1.
        cbv zeta. rewrite Hup. cbn [negb]. unfold bind at 1.
        now rewrite Hrec.
      * exists r. split; [exact Ht |].
        pose proof (reconnect_rounds_quiet b fuel r Hr) as Hq.
        split.
        -- now apply (count_quiet is_poll _ quiet_not_poll).
        -- now apply (count_quiet is_heartbeat _ quiet_not_heartbeat).
  - intros s1 Hentry. unfold mqtt_connected in Hentry.
    injection Hentry as Hup Hs1. rewrite Hup in Hs1. subst s1.
    split; [reflexivity |].
    unfold loop. straight_line. rewrite Hup. cbn [negb]. fields.
    destruct (5000 <? _); fields; eexists; eexists;
      (split; [reflexivity |]); fields;
      (split; [repeat first [rewrite <- app_assoc | progress cbn [app]];
               reflexivity |]);
      split; reflexivity.
Qed.

Lemma loop_reconnects_before_poll_witness :
  (exists s3 rc hb,
     loop calm_env default_build 4 boot = Returned tt s3 /\
     [MqttConnected false; MqttConnected false;
      SerialPrint "MQTT connecting..."; MqttConnect "pinpilot_device" false;
      SerialPrint "failed rc="; MqttState (-2); SerialPrintInt (-2);
      SerialPrintln " retry in 2s"; Delay 2000; MqttConnected true] =
       [MqttConnected false] ++ rc /\
     trace s3 =
       [MqttConnected false; MqttConnected false;
        SerialPrint "MQTT connecting..."; MqttConnect "pinpilot_device" false;
        SerialPrint "failed rc="; MqttState (-2); SerialPrintInt (-2);
        SerialPrintln " retry in 2s"; Delay 2000; MqttConnected true]
         ++ MqttLoop :: hb /\
     count is_poll rc = 0%nat /\ count is_heartbeat rc = 0%nat /\
     count is_poll hb = 0%nat) /\
  (exists s3 hb,
     loop edge_env default_build 0 boot = Returned tt s3 /\
     trace s3 = [MqttConnected true] ++ MqttLoop :: hb /\
     count is_poll hb = 0%nat /\
     count is_poll ([MqttConnected true] ++ MqttLoop :: hb) = 1%nat).
Proof.
  split.
  - refine (proj1 (proj2 (proj1 (proj2 (loop_reconnects_before_poll
                                          calm_env default_build 4 boot))
                            (mkState 0 0 1 0 0 0 [MqttConnected false]) _))
              (mkState 0 0 3 1 1 0
                 [MqttConnected false; MqttConnected false;
                  SerialPrint "MQTT connecting...";
                  MqttConnect "pinpilot_device" false;
                  SerialPrint "failed rc="; MqttState (-2);
                  SerialPrintInt (-2); SerialPrintln " retry in 2s";
                  Delay 2000; MqttConnected true]) _);
      vm_compute; reflexivity.
  - refine (proj2 (proj2 (proj2 (loop_reconnects_before_poll
                                   edge_env default_build 0 boot))
                     (mkState 0 0 1 0 0 0 [MqttConnected true]) _));
      vm_compute; reflexivity.
Defined.

(** ** Calls that never look at the trace *)

Lemma prepend_prepend {A} (a c : list Event) (o : Outcome A) :
  prepend a (prepend c o) = prepend (a ++ c) o.
Proof. destruct o; cbn; now rewrite app_assoc. Qed.

Lemma prepend_state {A} (tr : list Event) (o : Outcome A) :
  trace (state_of (prepend tr o)) = tr ++ trace (state_of o) /\
  returned (prepend tr o) = returned o.
Proof. now destruct o. Qed.

Lemma trace_blind_ret {A} (a : A) : trace_blind (ret a).
Proof. intros [l p1 p2 p3 p4 p5 tr]. cbn. now rewrite app_nil_r. Qed.

Lemma trace_blind_emit (e : Event) : trace_blind (emit e).
Proof. intros s. reflexivity. Qed.

Lemma trace_blind_status (env : Env) : trace_blind (WiFi_status env).
Proof. intros s. reflexivity. Qed.

Lemma trace_blind_bind {A B} (m : M A) (k : A -> M B) :
  trace_blind m -> (forall a, trace_blind (k a)) -> trace_blind (bind m k).
Proof.
  intros Hm Hk s. unfold bind at 1. rewrite (Hm s). unfold bind.
  destruct (m (clear s)) as [a s1 | s1]; cbn [prepend]; [| reflexivity].
  rewrite (Hk a). cbn [trace clear last status_polls connected_polls
                       connect_calls state_calls millis_calls].
  etransitivity; [| apply f_equal; symmetry; apply (Hk a s1)].
  now rewrite prepend_prepend.
Qed.

Lemma trace_blind_while (cond : M bool) (body : M unit) :
  trace_blind cond -> trace_blind body ->
  forall fuel, trace_blind (while fuel cond body).
Proof.
  intros Hc Hb. induction fuel as [| fuel IH].
  - intros [l p1 p2 p3 p4 p5 tr]. cbn. now rewrite app_nil_r.
  - intros s.
    change (while (S fuel) cond body)
      with (c <- cond ;; if c then body ;; while fuel cond body else ret tt).
    apply trace_blind_bind; [exact Hc |].
    intros [|].
    + apply trace_blind_bind; [exact Hb | intros _; exact IH].
    + apply trace_blind_ret.
Qed.

Lemma trace_blind_connectWiFi (env : Env) (fuel : nat) :
  trace_blind (connectWiFi env fuel).
Proof.
  unfold connectWiFi.
  repeat first
    [ apply trace_blind_bind; [| intros ?]
    | apply trace_blind_while
    | apply trace_blind_ret
    | apply trace_blind_status
    | apply trace_blind_emit ].
Qed.

(** setup() is its fixed opening, the pin operations of the pins that are
    defined, and then the rest of initialization, which sees neither. *)
Lemma setup_factor (env : Env) (b : Build) (fuel : nat) (s : State) :
  setup env b fuel s =
  prepend (trace s ++ SerialBegin 115200 :: Delay 200 ::
             pin_ops (EPAPER_SPI_2P13_CS b) HIGH ++ pin_ops (WS2812_DIN b) LOW)
          ((connectWiFi env fuel ;; mqtt_setServer MQTT_HOST MQTT_PORT) (clear s)).
Proof.
  assert (Hrest : trace_blind
                    (connectWiFi env fuel ;; mqtt_setServer MQTT_HOST MQTT_PORT)).
  { apply trace_blind_bind; [apply trace_blind_connectWiFi |].
    intros _. apply trace_blind_emit. }
  unfold setup, ifdef_pin.
  destruct (EPAPER_SPI_2P13_CS b), (WS2812_DIN b); cbn [pin_ops app];
    match goal with
    | |- _ = prepend (trace s ++ ?evs) _ =>
        transitivity
          ((connectWiFi env fuel ;; mqtt_setServer MQTT_HOST MQTT_PORT)
             (mkState (last s) (status_polls s) (connected_polls s)
                      (connect_calls s) (state_calls s) (millis_calls s)
                      (trace s ++ evs)));
        [| exact (Hrest _)]
    end;
    straight_line; unfold log; fields;
    repeat first [rewrite <- app_assoc | progress cbn [app]]; reflexivity.
Qed.

Lemma rest_of_setup_has_no_pin_op (env : Env) (fuel : nat) (s : State) :
  filter is_pin_op
    (trace (state_of ((connectWiFi env fuel ;;
                       mqtt_setServer MQTT_HOST MQTT_PORT) (clear s)))) = [].
Proof.
  unfold bind. pose proof (connectWiFi_shape env fuel (clear s)) as H.
  destruct (connectWiFi env fuel (clear s)) as [[] s' | s'].
  - destruct H as (n & r & _ & Hr & Ht & _).
    destruct (wifi_rounds_counts n r Hr) as (_ & _ & _ & _ & _ & Hp).
    apply length_zero_iff_nil in Hp.
    unfold mqtt_setServer, emit. fields. rewrite Ht.
    cbn [clear trace app filter is_pin_op]. rewrite !filter_app, Hp.
    reflexivity.
  - destruct H as (r & Hr & Ht & _).
    destruct (wifi_rounds_counts fuel r Hr) as (_ & _ & _ & _ & _ & Hp).
    apply length_zero_iff_nil in Hp.
    fields. rewrite Ht. cbn [clear trace app filter is_pin_op].
    exact Hp.
Qed.

Lemma pin_ops_are_pin_ops (pin : option Z) (l : pin_level) :
  filter is_pin_op (pin_ops pin l) = pin_ops pin l /\
  non_pin (pin_ops pin l) = [].
Proof. now destruct pin. Qed.

(** C9: the pin operations of setup() are exactly those of the pins that
    the hardware variant defines, in order: a pin whose macro is absent
    contributes none.  Nothing else depends on the pins: under any other
    build, setup() comes back or keeps waiting for the network alike, and
    makes the same calls apart from pin operations. *)
Theorem setup_skips_undefined_pins
    (env : Env) (b : Build) (fuel : nat) (s : State) :
  exists evs,
    trace (state_of (setup env b fuel s)) = trace s ++ evs /\
    filter is_pin_op evs =
      pin_ops (EPAPER_SPI_2P13_CS b) HIGH ++ pin_ops (WS2812_DIN b) LOW /\
    forall b', exists evs',
      trace (state_of (setup env b' fuel s)) = trace s ++ evs' /\
      non_pin evs' = non_pin evs /\
      returned (setup env b' fuel s) = returned (setup env b fuel s).
Proof.
  set (rest := (connectWiFi env fuel ;; mqtt_setServer MQTT_HOST MQTT_PORT)
                 (clear s)).
  assert (Hany : forall c,
    trace (state_of (setup env c fuel s)) =
      trace s ++ (SerialBegin 115200 :: Delay 200 ::
                  pin_ops (EPAPER_SPI_2P13_CS c) HIGH ++
                  pin_ops (WS2812_DIN c) LOW) ++ trace (state_of rest) /\
    returned (setup env c fuel s) = returned rest).
  { intros c. rewrite setup_factor. fold rest.
    destruct (prepend_state
                (trace s ++ SerialBegin 115200 :: Delay 200 ::
                   pin_ops (EPAPER_SPI_2P13_CS c) HIGH ++
                   pin_ops (WS2812_DIN c) LOW) rest) as [Ht Hr].
    split; [| exact Hr]. rewrite Ht. now rewrite <- app_assoc. }
  assert (Hnon : forall c,
    non_pin ((SerialBegin 115200 :: Delay 200 ::
              pin_ops (EPAPER_SPI_2P13_CS c) HIGH ++
              pin_ops (WS2812_DIN c) LOW) ++ trace (state_of rest)) =
    SerialBegin 115200 :: Delay 200 :: non_pin (trace (state_of rest))).
  { intros c. unfold non_pin. rewrite filter_app. cbn [filter is_pin_op negb].
    rewrite filter_app.
    destruct (pin_ops_are_pin_ops (EPAPER_SPI_2P13_CS c) HIGH) as [_ H1].
    destruct (pin_ops_are_pin_ops (WS2812_DIN c) LOW) as [_ H2].
    unfold non_pin in H1, H2. now rewrite H1, H2. }
  eexists. split; [apply (Hany b) |]. split.
  - rewrite filter_app. cbn [filter is_pin_op]. rewrite filter_app.
    destruct (pin_ops_are_pin_ops (EPAPER_SPI_2P13_CS b) HIGH) as [H1 _].
    destruct (pin_ops_are_pin_ops (WS2812_DIN b) LOW) as [H2 _].
    rewrite H1, H2. unfold rest. rewrite rest_of_setup_has_no_pin_op.
    now rewrite app_nil_r.
  - intros b'. eexists. split; [apply (Hany b') |]. split.
    + now rewrite !Hnon.
    + destruct (Hany b) as [_ ->]. now destruct (Hany b') as [_ ->].
Qed.

Lemma setup_skips_undefined_pins_witness :
  exists evs,
    trace (state_of (setup calm_env (mkBuild None None (Some 48)) 5 boot)) =
      trace boot ++ evs /\
    filter is_pin_op evs = [PinMode 48 OUTPUT; DigitalWrite 48 LOW] /\
    forall b', exists evs',
      trace (state_of (setup calm_env b' 5 boot)) = trace boot ++ evs' /\
      non_pin evs' = non_pin evs /\
      returned (setup calm_env b' 5 boot) =
      returned (setup calm_env (mkBuild None None (Some 48)) 5 boot).
Proof.
  exact (setup_skips_undefined_pins calm_env (mkBuild None None (Some 48)) 5 boot).
Defined.

(** ** The spacing of heartbeats *)

Lemma spaced_snoc (ts : list Z) (t : Z) :
  spaced ts ->
  (ts = [] \/ 5000 < t - List.last ts 0) ->
  spaced (ts ++ [t]).
Proof.
  induction ts as [| a ts IH]; intros Hs Hgap; [exact I |].
  destruct ts as [| c ts].
  - destruct Hgap as [Hnil | Hgap]; [discriminate |].
    cbn in *. split; [lia | exact I].
  - destruct Hs as [Hac Hs]. cbn [app spaced]. split; [exact Hac |].
    apply IH; [exact Hs |]. right.
    destruct Hgap as [Hnil | Hgap]; [discriminate | exact Hgap].
Qed.

Lemma heartbeat_times_grow (tr rc tl : list Event) :
  Forall (fun e => quiet e = true) rc ->
  heartbeat_times 0 (tr ++ rc ++ tl) =
  heartbeat_times 0 tr ++ heartbeat_times (latest_millis 0 tr) tl.
Proof.
  intros Hq.
  rewrite heartbeat_times_app, heartbeat_times_app.
  rewrite (heartbeat_times_quiet _ rc Hq), (latest_millis_quiet _ rc Hq).
  reflexivity.
Qed.

Lemma timer_inv_quiet (env : Env) (s s' : State) :
  same_timer s s' ->
  grows (Forall (fun e => quiet e = true)) s s' ->
  timer_inv env s -> timer_inv env s'.
Proof.
  intros [Hl Hm] (evs & Ht & Hq) Hinv. unfold timer_inv in *.
  rewrite Ht, Hl, Hm.
  replace (trace s ++ evs) with (trace s ++ evs ++ [])
    by now rewrite app_nil_r.
  rewrite (heartbeat_times_grow _ evs [] Hq). cbn [heartbeat_times].
  now rewrite app_nil_r.
Qed.

Lemma timer_inv_loop (env : Env) (b : Build) (fuel : nat) (s : State) :
  monotone_clock env ->
  timer_inv env s -> timer_inv env (state_of (loop env b fuel s)).
Proof.
  intros Hmono Hinv. pose proof (loop_shape env b fuel s) as H.
  destruct (loop env b fuel s) as [[] s' | s']; cbn [state_of].
  - destruct H as (rc & Hrc & H).
    pose proof (connect_phase_quiet b rc Hrc) as Hq.
    destruct Hinv as (Hsp & Hlast & Hread). unfold timer_inv.
    destruct H as [(_ & Ht & Hl & Hm) | (Hdue & Ht & Hl & Hm)];
      rewrite Ht, (heartbeat_times_grow _ rc _ Hq);
      cbn [heartbeat_times is_heartbeat String.eqb Ascii.eqb Bool.eqb].
    + rewrite app_nil_r, Hl, Hm. repeat split; try assumption.
      destruct Hread as [Hnil | (j & Hj & Hjt)]; [now left |].
      right. exists j. split; [lia | exact Hjt].
    + rewrite last_last, Hl, Hm. split; [| split].
      * apply spaced_snoc; [exact Hsp |].
        destruct Hread as [Hnil | (j & Hj & Hjt)]; [now left |].
        right. rewrite Hlast, Hjt in Hdue. rewrite Hjt.
        pose proof (Hmono j (millis_calls s) ltac:(lia)) as H1.
        pose proof (Hmono (millis_calls s) (S (millis_calls s)) ltac:(lia)) as H2.
        pose proof (u32_sub_le_gap _ _ H1) as H3. lia.
      * reflexivity.
      * right. exists (S (millis_calls s)). split; [lia | reflexivity].
  - destruct H as (_ & r & Hr & Ht & Hs).
    apply (timer_inv_quiet env s s' Hs); [| exact Hinv].
    exists (MqttConnected false :: r). split; [exact Ht |].
    constructor; [reflexivity |]. eapply reconnect_rounds_quiet, Hr.
Qed.

Lemma timer_inv_setup (env : Env) (b : Build) (fuel : nat) (s : State) :
  timer_inv env s -> timer_inv env (state_of (setup env b fuel s)).
Proof.
  destruct (boot_step_setup env b fuel s) as [Hs (evs & Ht & Hev)].
  apply timer_inv_quiet; [exact Hs |].
  exists evs. split; [exact Ht |]. now apply boot_events_quiet.
Qed.

Lemma carries_refl (I : State -> Prop) (s : State) : carries I s s.
Proof. intros H. exact H. Qed.

Lemma carries_trans (I : State -> Prop) (s1 s2 s3 : State) :
  carries I s1 s2 -> carries I s2 s3 -> carries I s1 s3.
Proof. unfold carries. auto. Qed.

(** C3: however far the firmware has run, and whatever the connection did,
    the heartbeats it has published are more than 5000 ms of true time
    apart, provided true time never runs backwards; and [last] always holds
    the 32-bit reading taken for the latest heartbeat (0 before the first):
    nothing but the heartbeat branch of loop() writes it. *)
Theorem heartbeats_are_spaced (env : Env) (b : Build) (fuel n : nat) :
  monotone_clock env ->
  spaced (heartbeat_times 0 (trace (state_of (firmware env b fuel n boot)))) /\
  last (state_of (firmware env b fuel n boot)) =
    to_u32 (List.last
              (heartbeat_times 0 (trace (state_of (firmware env b fuel n boot))))
              0).
Proof.
  intros Hmono.
  assert (H : respects (carries (timer_inv env)) (firmware env b fuel n)).
  { unfold firmware.
    apply respects_bind.
    - apply carries_trans.
    - intros s Hinv. now apply timer_inv_setup.
    - intros _. apply respects_repeat.
      + apply carries_refl.
      + apply carries_trans.
      + intros s Hinv. now apply timer_inv_loop. }
  destruct (H boot) as (Hsp & Hlast & _).
  - repeat split. now left.
  - split; assumption.
Qed.

Lemma heartbeats_are_spaced_witness :
  monotone_clock calm_env /\
  spaced (heartbeat_times 0
            (trace (state_of (firmware calm_env default_build 4 12 boot)))) /\
  last (state_of (firmware calm_env default_build 4 12 boot)) =
    to_u32 (List.last
              (heartbeat_times 0
                 (trace (state_of (firmware calm_env default_build 4 12 boot))))
              0).
Proof.
  assert (Hmono : monotone_clock calm_env).
  { intros i j Hij.
    change (2500 * Z.of_nat i <= 2500 * Z.of_nat j). lia. }
  split; [exact Hmono |].
  exact (heartbeats_are_spaced calm_env default_build 4 12 Hmono).
Defined.

(** * Further properties of the sketch *)

(** ** setup(), event by event *)

(** The whole trace of setup(): its opening, the pin operations, the calls
    that start the association, the rounds of waiting, and once the link is
    up the broker's address. *)
Lemma setup_shape (env : Env) (b : Build) (fuel : nat) (s : State) :
  match setup env b fuel s with
  | Returned _ s' =>
      exists n r, (n < fuel)%nat /\ wifi_rounds n r /\
        trace s' = trace s ++
          (SerialBegin 115200 :: Delay 200 ::
           pin_ops (EPAPER_SPI_2P13_CS b) HIGH ++ pin_ops (WS2812_DIN b) LOW) ++
          WiFiMode WIFI_STA :: WiFiBegin WIFI_SSID WIFI_PASS ::
          r ++ [WiFiStatus WL_CONNECTED;
                SerialPrintln (String "010"%char "WiFi connected");
                MqttSetServer MQTT_HOST MQTT_PORT] /\
        (forall i, (i < n)%nat ->
                   wifi_status_at env (status_polls s + i) <> WL_CONNECTED) /\
        wifi_status_at env (status_polls s + n) = WL_CONNECTED
  | Blocked s' =>
      exists r, wifi_rounds fuel r /\
        trace s' = trace s ++
          (SerialBegin 115200 :: Delay 200 ::
           pin_ops (EPAPER_SPI_2P13_CS b) HIGH ++ pin_ops (WS2812_DIN b) LOW) ++
          WiFiMode WIFI_STA :: WiFiBegin WIFI_SSID WIFI_PASS :: r /\
        (forall i, (i < fuel)%nat ->
                   wifi_status_at env (status_polls s + i) <> WL_CONNECTED)
  end.
Proof.
  rewrite setup_factor. unfold bind at 1.
  pose proof (connectWiFi_shape env fuel (clear s)) as H.
  destruct (connectWiFi env fuel (clear s)) as [[] s1 | s1];
    cbn [prepend mqtt_setServer emit]; fields; cbn [clear trace status_polls] in H.
  - destruct H as (n & r & Hn & Hr & Ht & _ & Hlo & Hhi).
    exists n, r. repeat split; try assumption.
    rewrite Ht. cbn [app].
    repeat first [rewrite <- app_assoc | progress cbn [app]]. reflexivity.
  - destruct H as (r & Hr & Ht & _ & Hlo).
    exists r. repeat split; try assumption.
    rewrite Ht. cbn [app].
    repeat first [rewrite <- app_assoc | progress cbn [app]]. reflexivity.
Qed.

Lemma wifi_rounds_count_zero (p : Event -> bool) (n : nat) (r : list Event) :
  (forall code, p (WiFiStatus code) = false) ->
  p (Delay 300) = false ->
  p (SerialPrint ".") = false ->
  wifi_rounds n r -> count p r = O.
Proof.
  intros Hs Hd Hp Hr. induction Hr as [| n code rest _ _ IH]; [reflexivity |].
  now rewrite !count_cons, Hs, Hd, Hp, IH.
Qed.

Lemma pin_ops_count_zero (p : Event -> bool) (pin : option Z) (l : pin_level) :
  (forall x m, p (PinMode x m) = false) ->
  (forall x v, p (DigitalWrite x v) = false) ->
  count p (pin_ops pin l) = O.
Proof.
  intros Hm Hw. destruct pin as [x |]; [| reflexivity].
  cbn [pin_ops]. now rewrite !count_cons, Hm, Hw.
Qed.

(** X1: whatever the budget and whether or not the network ever comes up,
    setup() has opened the serial port, waited 200 ms and driven every
    defined pin to its idle level (chip select first, as an output at HIGH,
    then the LED data pin, as an output at LOW) before it starts the WiFi
    association, and it touches no pin after that. *)
Theorem setup_configures_pins_before_wifi
    (env : Env) (b : Build) (fuel : nat) (s : State) :
  exists rest,
    trace (state_of (setup env b fuel s)) =
      trace s ++
      SerialBegin 115200 :: Delay 200 ::
      pin_ops (EPAPER_SPI_2P13_CS b) HIGH ++ pin_ops (WS2812_DIN b) LOW ++
      WiFiMode WIFI_STA :: WiFiBegin WIFI_SSID WIFI_PASS :: rest /\
    count is_pin_op rest = O.
Proof.
  pose proof (setup_shape env b fuel s) as H.
  destruct (setup env b fuel s) as [[] s' | s']; cbn [state_of].
  - destruct H as (n & r & _ & Hr & Ht & _).
    eexists. split.
    + rewrite Ht. cbn [app]. rewrite <- app_assoc. reflexivity.
    + rewrite count_app.
      now rewrite (wifi_rounds_count_zero is_pin_op n r).
  - destruct H as (r & Hr & Ht & _).
    exists r. split.
    + rewrite Ht. cbn [app]. rewrite <- app_assoc. reflexivity.
    + now apply (wifi_rounds_count_zero is_pin_op fuel r).
Qed.

(** X2: when poll [n] of WiFi.status() is the first to report WL_CONNECTED
    and the budget reaches it, setup() returns; it has then waited [n + 1]
    times in all (once for 200 ms, [n] times for 300 ms), and its last call,
    the only one it makes to the MQTT client, gives it the broker
    192.168.1.10:1883. *)
Theorem setup_sets_server_once_associated
    (env : Env) (b : Build) (fuel : nat) (s : State) (n : nat) :
  (forall i, (i < n)%nat ->
             wifi_status_at env (status_polls s + i) <> WL_CONNECTED) ->
  wifi_status_at env (status_polls s + n) = WL_CONNECTED ->
  (n < fuel)%nat ->
  exists s' pre,
    setup env b fuel s = Returned tt s' /\
    trace s' = trace s ++ pre ++ [MqttSetServer "192.168.1.10" 1883] /\
    count is_mqtt pre = O /\
    count is_any_delay pre = S n /\
    count (is_delay 300) pre = n /\
    count (is_delay 200) pre = 1%nat.
Proof.
  intros Hlo Hhi Hfuel. pose proof (setup_shape env b fuel s) as H.
  destruct (setup env b fuel s) as [[] s' | s'].
  - destruct H as (m & r & _ & Hr & Ht & Hlo' & Hhi').
    assert (n = m) as <-.
    { now apply (first_index_unique
               (fun i => wifi_status_at env (status_polls s + i) = WL_CONNECTED)). }
    destruct (wifi_rounds_counts n r Hr) as (_ & Hd & Ha & _).
    exists s',
      ((SerialBegin 115200 :: Delay 200 ::
        pin_ops (EPAPER_SPI_2P13_CS b) HIGH ++ pin_ops (WS2812_DIN b) LOW) ++
       WiFiMode WIFI_STA :: WiFiBegin WIFI_SSID WIFI_PASS ::
       r ++ [WiFiStatus WL_CONNECTED;
             SerialPrintln (String "010"%char "WiFi connected")]).
    split; [reflexivity |]. split.
    + rewrite Ht.
      repeat first [rewrite <- app_assoc | progress cbn [app]]. reflexivity.
    + rewrite !count_app, !count_cons, !count_app, !count_cons, Hd, Ha.
      rewrite (wifi_rounds_count_zero is_mqtt n r
                 (fun _ => eq_refl) eq_refl eq_refl Hr).
      rewrite !(pin_ops_count_zero is_mqtt _ _
                  (fun _ _ => eq_refl) (fun _ _ => eq_refl)).
      rewrite !(pin_ops_count_zero is_any_delay _ _
                  (fun _ _ => eq_refl) (fun _ _ => eq_refl)).
      rewrite !(pin_ops_count_zero (is_delay 300) _ _
                  (fun _ _ => eq_refl) (fun _ _ => eq_refl)).
      rewrite !(pin_ops_count_zero (is_delay 200) _ _
                  (fun _ _ => eq_refl) (fun _ _ => eq_refl)).
      rewrite (wifi_rounds_count_zero (is_delay 200) n r
                 (fun _ => eq_refl) eq_refl eq_refl Hr).
      cbn. repeat split; lia.
  - destruct H as (_ & _ & _ & Hdown).
    now destruct (Hdown n Hfuel).
Qed.

Lemma setup_sets_server_once_associated_witness :
  exists s' pre,
    setup calm_env full_build 5 boot = Returned tt s' /\
    trace s' = trace boot ++ pre ++ [MqttSetServer "192.168.1.10" 1883] /\
    count is_mqtt pre = O /\
    count is_any_delay pre = 3%nat /\
    count (is_delay 300) pre = 2%nat /\
    count (is_delay 200) pre = 1%nat.
Proof.
  apply (setup_sets_server_once_associated calm_env full_build 5 boot 2).
  - intros [| [| i]] Hi; (discriminate || lia).
  - reflexivity.
  - lia.
Defined.

(** ** What the waiting does not repeat *)

(** X3: connectWiFi() selects station mode and starts the association with
    the configured credentials exactly once, as its first two calls; however
    long the link takes, and whether or not it ever comes up, the
    association is never started again. *)
Theorem connectWiFi_begins_once (env : Env) (fuel : nat) (s : State) :
  exists rest,
    trace (state_of (connectWiFi env fuel s)) =
      trace s ++ WiFiMode WIFI_STA :: WiFiBegin "YOUR_WIFI" "YOUR_PASS" :: rest /\
    count is_wifi_begin rest = O /\
    count is_wifi_mode rest = O.
Proof.
  pose proof (connectWiFi_shape env fuel s) as H.
  destruct (connectWiFi env fuel s) as [[] s' | s']; cbn [state_of].
  - destruct H as (n & r & _ & Hr & Ht & _).
    eexists. split; [exact Ht |].
    rewrite !count_app.
    rewrite (wifi_rounds_count_zero is_wifi_begin n r
               (fun _ => eq_refl) eq_refl eq_refl Hr).
    rewrite (wifi_rounds_count_zero is_wifi_mode n r
               (fun _ => eq_refl) eq_refl eq_refl Hr).
    split; reflexivity.
  - destruct H as (r & Hr & Ht & _).
    exists r. split; [exact Ht |]. split.
    + exact (wifi_rounds_count_zero is_wifi_begin fuel r
               (fun _ => eq_refl) eq_refl eq_refl Hr).
    + exact (wifi_rounds_count_zero is_wifi_mode fuel r
               (fun _ => eq_refl) eq_refl eq_refl Hr).
Qed.

(** X4: when WiFi.status() never reports WL_CONNECTED the firmware never
    leaves setup(): whatever the budget and however many rounds of loop()
    were asked for, it is still polling the link, and it has made no call at
    all to the MQTT client (no server set, no connect, no publish, no
    keepalive poll) and has never read the clock. *)
Theorem firmware_without_wifi_never_reaches_mqtt
    (env : Env) (b : Build) (fuel n : nat) :
  (forall i, wifi_status_at env i <> WL_CONNECTED) ->
  exists s',
    firmware env b fuel n boot = Blocked s' /\
    count is_mqtt (trace s') = O /\
    count is_millis (trace s') = O /\
    count is_status_poll (trace s') = fuel.
Proof.
  intros Hdown. unfold firmware, bind.
  pose proof (setup_shape env b fuel boot) as H.
  destruct (setup env b fuel boot) as [[] s' | s'].
  - destruct H as (m & _ & _ & _ & _ & _ & Hhi).
    now destruct (Hdown (status_polls boot + m)%nat).
  - destruct H as (r & Hr & Ht & _).
    destruct (wifi_rounds_counts fuel r Hr) as (Hp & _).
    exists s'. split; [reflexivity |]. rewrite Ht. cbn [boot trace app].
    rewrite !count_cons, !count_app, !count_cons, Hp.
    rewrite (wifi_rounds_count_zero is_mqtt fuel r
               (fun _ => eq_refl) eq_refl eq_refl Hr).
    rewrite (wifi_rounds_count_zero is_millis fuel r
               (fun _ => eq_refl) eq_refl eq_refl Hr).
    rewrite !(pin_ops_count_zero is_mqtt _ _
                (fun _ _ => eq_refl) (fun _ _ => eq_refl)).
    rewrite !(pin_ops_count_zero is_millis _ _
                (fun _ _ => eq_refl) (fun _ _ => eq_refl)).
    rewrite !(pin_ops_count_zero is_status_poll _ _
                (fun _ _ => eq_refl) (fun _ _ => eq_refl)).
    cbn. repeat split.
Qed.

Lemma firmware_without_wifi_never_reaches_mqtt_witness :
  exists s',
    firmware dead_env full_build 6 9 boot = Blocked s' /\
    count is_mqtt (trace s') = O /\
    count is_millis (trace s') = O /\
    count is_status_poll (trace s') = 6%nat.
Proof.
  apply (firmware_without_wifi_never_reaches_mqtt dead_env full_build 6 9).
  intros i. discriminate.
Defined.

(** ** A round of loop() with the client up *)

(** X5: when mqtt.connected() reports the client up at the entry of loop(),
    the round returns whatever the budget (it enters no waiting loop): it
    polls the status once, attempts no connect, reads no client state and
    waits for nothing; it services the keepalive poll, reads the clock, and
    exactly when the 32-bit elapsed time since [last] is more than 5000 ms
    it reads the clock again, stores that reading in [last] and publishes
    the heartbeat.  Otherwise [last] is left alone. *)
Theorem loop_does_not_wait_when_connected
    (env : Env) (b : Build) (fuel : nat) (s : State) :
  connected_at env (connected_polls s) = true ->
  exists s',
    loop env b fuel s = Returned tt s' /\
    trace s' =
      trace s ++ MqttConnected true :: MqttLoop ::
        Millis (clock_at env (millis_calls s)) ::
        (if 5000 <? u32_sub (to_u32 (clock_at env (millis_calls s))) (last s)
         then [Millis (clock_at env (S (millis_calls s)));
               MqttPublish "pinpilot/heartbeat" (DEVICE_NAME b)]
         else []) /\
    last s' =
      (if 5000 <? u32_sub (to_u32 (clock_at env (millis_calls s))) (last s)
       then to_u32 (clock_at env (S (millis_calls s)))
       else last s) /\
    connected_polls s' = S (connected_polls s) /\
    connect_calls s' = connect_calls s /\
    state_calls s' = state_calls s.
Proof.
  intros Hup. unfold loop. straight_line. rewrite Hup. cbn [negb]. fields.
  destruct (5000 <? _); fields; eexists;
    (split; [reflexivity |]); fields;
    (split; [repeat first [rewrite <- app_assoc | progress cbn [app]];
             reflexivity |]);
    repeat split.
Qed.

Lemma loop_does_not_wait_when_connected_witness :
  exists s',
    loop wrap_env full_build 0 (mkState 2000 1 1 0 0 3 []) = Returned tt s' /\
    trace s' =
      [] ++ MqttConnected true :: MqttLoop ::
        Millis (clock_at wrap_env 3) ::
        (if 5000 <? u32_sub (to_u32 (clock_at wrap_env 3)) 2000
         then [Millis (clock_at wrap_env 4);
               MqttPublish "pinpilot/heartbeat" (DEVICE_NAME full_build)]
         else []) /\
    last s' =
      (if 5000 <? u32_sub (to_u32 (clock_at wrap_env 3)) 2000
       then to_u32 (clock_at wrap_env 4)
       else 2000) /\
    connected_polls s' = 2%nat /\
    connect_calls s' = 0%nat /\
    state_calls s' = 0%nat.
Proof.
  apply (loop_does_not_wait_when_connected wrap_env full_build 0
           (mkState 2000 1 1 0 0 3 [])).
  reflexivity.
Defined.

(** ** The first heartbeat, and heartbeats across a wrap of the counter *)

Lemma timer_idle_quiet (s s' : State) :
  same_timer s s' ->
  grows (Forall (fun e => quiet e = true)) s s' ->
  timer_idle s -> timer_idle s'.
Proof.
  intros [Hl _] (evs & Ht & Hq) [H0 Hc]. split; [congruence |].
  rewrite Ht, count_app, Hc.
  now rewrite (count_quiet is_heartbeat evs quiet_not_heartbeat Hq).
Qed.

Lemma timer_idle_loop (env : Env) (b : Build) (fuel : nat) (s : State) :
  0 <= clock_at env (millis_calls s) <= 5000 ->
  timer_idle s ->
  timer_idle (state_of (loop env b fuel s)) /\
  (millis_calls (state_of (loop env b fuel s)) <= S (millis_calls s))%nat /\
  (millis_calls s <= millis_calls (state_of (loop env b fuel s)))%nat.
Proof.
  intros Hearly [H0 Hc]. pose proof (loop_shape env b fuel s) as H.
  destruct (loop env b fuel s) as [[] s' | s']; cbn [state_of].
  - destruct H as (rc & Hrc & [(_ & Ht & Hl & Hm) | (Hdue & _)]).
    + split; [| lia]. split; [congruence |].
      rewrite Ht, !count_app, Hc.
      now rewrite (count_quiet is_heartbeat rc quiet_not_heartbeat
                     (connect_phase_quiet b rc Hrc)).
    + exfalso. rewrite H0 in Hdue.
      change 0 with (to_u32 0) in Hdue.
      rewrite u32_sub_small in Hdue; [lia |].
      unfold U32. cbn. lia.
  - destruct H as (_ & r & Hr & Ht & Hs).
    split; [| destruct Hs as [_ Hm]; lia].
    apply (timer_idle_quiet s s' Hs); [| now split].
    exists (MqttConnected false :: r). split; [exact Ht |].
    constructor; [reflexivity |]. eapply reconnect_rounds_quiet, Hr.
Qed.

Lemma timer_idle_rounds (env : Env) (b : Build) (fuel n : nat) :
  forall s,
    (forall k, (millis_calls s <= k < millis_calls s + n)%nat ->
               0 <= clock_at env k <= 5000) ->
    timer_idle s ->
    timer_idle (state_of (repeat_loop n (loop env b fuel) s)).
Proof.
  induction n as [| n IH]; intros s Hearly Hidle; [exact Hidle |].
  cbn [repeat_loop]. unfold bind.
  destruct (timer_idle_loop env b fuel s) as (Hidle1 & Hup & Hlow);
    [apply Hearly; lia | exact Hidle |].
  destruct (loop env b fuel s) as [[] s1 | s1]; cbn [state_of] in *.
  - apply IH; [| exact Hidle1].
    intros k Hk. apply Hearly. lia.
  - exact Hidle1.
Qed.

(** X6: [last] starts at 0, so the first heartbeat waits for the counter to
    pass 5000.  Each round of loop() that publishes nothing reads the clock
    once; when the first [n] readings of [millis()] are all at most 5000 ms
    since boot, the first [n] rounds publish no heartbeat and leave [last]
    at 0, whatever the clock does afterwards. *)
Theorem no_heartbeat_in_first_5000_ms
    (env : Env) (b : Build) (fuel n : nat) :
  (forall k, (k < n)%nat -> 0 <= clock_at env k <= 5000) ->
  count is_heartbeat (trace (state_of (firmware env b fuel n boot))) = O /\
  last (state_of (firmware env b fuel n boot)) = 0.
Proof.
  intros Hearly. unfold firmware, bind.
  destruct (boot_step_setup env b fuel boot) as [Hs (evs & Ht & Hev)].
  assert (Hidle : timer_idle (state_of (setup env b fuel boot))).
  { apply (timer_idle_quiet boot _ Hs); [| now split].
    exists evs. split; [exact Ht |]. now apply boot_events_quiet. }
  destruct (setup env b fuel boot) as [[] s1 | s1]; cbn [state_of] in *.
  - destruct (timer_idle_rounds env b fuel n s1) as [H0 Hc];
      [| exact Hidle | now split].
    destruct Hs as [_ Hm]. rewrite Hm. cbn [boot millis_calls].
    intros k Hk. apply Hearly. lia.
  - destruct Hidle as [H0 Hc]. now split.
Qed.

Lemma no_heartbeat_in_first_5000_ms_witness :
  count is_heartbeat
    (trace (state_of (firmware calm_env default_build 3 3 boot))) = O /\
  last (state_of (firmware calm_env default_build 3 3 boot)) = 0.
Proof.
  apply (no_heartbeat_in_first_5000_ms calm_env default_build 3 3).
  intros k Hk. change (0 <= 2500 * Z.of_nat k <= 5000). lia.
Defined.

(** X7: the heartbeat test only sees the elapsed time modulo 2^32.  When the
    true time since the reading held in [last] is a whole number of wraps of
    the counter plus at most 5000 ms (49.7 days and a few seconds, say, spent
    inside mqttReconnect()), a round of loop() that gets past the connect
    phase publishes no heartbeat and leaves [last] as it was. *)
Theorem heartbeat_test_aliases_after_wrap
    (env : Env) (b : Build) (fuel : nat) (s : State) (t0 wraps d : Z) :
  last s = to_u32 t0 ->
  clock_at env (millis_calls s) - t0 = wraps * U32 + d ->
  0 <= d <= 5000 ->
  connects_within env s fuel ->
  exists s' evs,
    loop env b fuel s = Returned tt s' /\
    trace s' = trace s ++ evs /\
    count is_heartbeat evs = O /\
    last s' = last s.
Proof.
  intros Hl Hgap Hd Hup.
  assert (He : u32_sub (to_u32 (clock_at env (millis_calls s))) (last s) = d).
  { rewrite Hl, u32_sub_readings, Hgap, Z.add_comm, Z_mod_plus_full.
    apply Z.mod_small. unfold U32. cbn. lia. }
  pose proof (loop_shape env b fuel s) as H.
  destruct (loop env b fuel s) as [[] s' | s'].
  - cbv zeta in H. rewrite He in H.
    destruct H as (rc & Hrc & [(_ & Ht & Hlast & _) | (Hgt & _)]); [| lia].
    exists s'. eexists. split; [reflexivity |]. split; [exact Ht |].
    split; [| exact Hlast].
    rewrite count_app.
    now rewrite (count_quiet is_heartbeat rc quiet_not_heartbeat
                   (connect_phase_quiet b rc Hrc)).
  - destruct H as (Hdown & _).
    now apply connects_within_not_blocked in Hup.
Qed.

Lemma heartbeat_test_aliases_after_wrap_witness :
  clock_at wrap_env 1 - 1900 = 1 * U32 + 100 /\
  exists s' evs,
    loop wrap_env full_build 1 (mkState 1900 0 0 0 0 1 []) = Returned tt s' /\
    trace s' = [] ++ evs /\
    count is_heartbeat evs = O /\
    last s' = 1900.
Proof.
  split; [reflexivity |].
  refine (heartbeat_test_aliases_after_wrap wrap_env full_build 1
            (mkState 1900 0 0 0 0 1 []) 1900 1 100 _ _ _ _).
  - reflexivity.
  - reflexivity.
  - lia.
  - exists O. split; [lia | reflexivity].
Defined.

(** ** How often the firmware polls and publishes *)

Lemma heartbeat_times_length (cur : Z) (evs : list Event) :
  List.length (heartbeat_times cur evs) = count is_heartbeat evs.
Proof.
  revert cur. induction evs as [| e evs IH]; intros cur; [reflexivity |].
  rewrite count_cons.
  destruct e; cbn [heartbeat_times]; try apply IH.
  cbn [is_heartbeat]. destruct (topic =? "pinpilot/heartbeat")%string.
  - cbn [List.length]. now rewrite IH.
  - apply IH.
Qed.

Lemma spaced_span (ts : list Z) :
  spaced ts ->
  5000 * (Z.of_nat (List.length ts) - 1) <= List.last ts 0 - hd 0 ts.
Proof.
  induction ts as [| a ts IH]; intros Hs; [cbn; lia |].
  destruct ts as [| c ts]; [cbn; lia |].
  destruct Hs as [Hac Hs]. specialize (IH Hs).
  change (List.last (a :: c :: ts) 0) with (List.last (c :: ts) 0).
  change (hd 0 (a :: c :: ts)) with a.
  change (hd 0 (c :: ts)) with c in IH.
  change (List.length (a :: c :: ts)) with (S (List.length (c :: ts))).
  rewrite Nat2Z.inj_succ. lia.
Qed.

Lemma firmware_timer_inv (env : Env) (b : Build) (fuel n : nat) :
  monotone_clock env ->
  timer_inv env (state_of (firmware env b fuel n boot)).
Proof.
  intros Hmono.
  assert (H : respects (carries (timer_inv env)) (firmware env b fuel n)).
  { unfold firmware.
    apply respects_bind.
    - apply carries_trans.
    - intros s Hinv. now apply timer_inv_setup.
    - intros _. apply respects_repeat.
      + apply carries_refl.
      + apply carries_trans.
      + intros s Hinv. now apply timer_inv_loop. }
  apply (H boot). repeat split. now left.
Qed.

(** X8: the heartbeat rate is bounded by true time.  With true time never
    running backwards, the [k] heartbeats a run of the firmware has
    published span more than [5000 * (k - 1)] ms between the first and the
    latest of them, however the connection behaved in between. *)
Theorem heartbeat_rate_is_bounded (env : Env) (b : Build) (fuel n : nat) :
  monotone_clock env ->
  List.length (heartbeat_times 0 (trace (state_of (firmware env b fuel n boot)))) =
    count is_heartbeat (trace (state_of (firmware env b fuel n boot))) /\
  5000 * (Z.of_nat (count is_heartbeat
                      (trace (state_of (firmware env b fuel n boot)))) - 1) <=
    List.last (heartbeat_times 0 (trace (state_of (firmware env b fuel n boot)))) 0 -
    hd 0 (heartbeat_times 0 (trace (state_of (firmware env b fuel n boot)))).
Proof.
  intros Hmono. split; [apply heartbeat_times_length |].
  rewrite <- (heartbeat_times_length 0).
  apply spaced_span.
  now destruct (firmware_timer_inv env b fuel n Hmono) as (Hsp & _).
Qed.

Lemma heartbeat_rate_is_bounded_witness :
  monotone_clock calm_env /\
  count is_heartbeat
    (trace (state_of (firmware calm_env default_build 4 12 boot))) = 3%nat /\
  5000 * (Z.of_nat (count is_heartbeat
                      (trace (state_of (firmware calm_env default_build 4 12 boot))))
          - 1) <=
    List.last (heartbeat_times 0
                 (trace (state_of (firmware calm_env default_build 4 12 boot)))) 0 -
    hd 0 (heartbeat_times 0
            (trace (state_of (firmware calm_env default_build 4 12 boot)))).
Proof.
  assert (Hmono : monotone_clock calm_env).
  { intros i j Hij.
    change (2500 * Z.of_nat i <= 2500 * Z.of_nat j). lia. }
  split; [exact Hmono |]. split; [vm_compute; reflexivity |].
  exact (proj2 (heartbeat_rate_is_bounded calm_env default_build 4 12 Hmono)).
Defined.

Lemma loop_counts (env : Env) (b : Build) (fuel : nat) (s : State) :
  match loop env b fuel s with
  | Returned _ s' =>
      count is_poll (trace s') = S (count is_poll (trace s)) /\
      (count is_heartbeat (trace s') <= S (count is_heartbeat (trace s)))%nat
  | Blocked s' =>
      count is_poll (trace s') = count is_poll (trace s) /\
      count is_heartbeat (trace s') = count is_heartbeat (trace s)
  end.
Proof.
  pose proof (loop_shape env b fuel s) as H.
  destruct (loop env b fuel s) as [[] s' | s'].
  - destruct H as (rc & Hrc & H).
    pose proof (connect_phase_quiet b rc Hrc) as Hq.
    destruct H as [(_ & Ht & _) | (_ & Ht & _)];
      rewrite Ht, !count_app,
        (count_quiet is_poll rc quiet_not_poll Hq),
        (count_quiet is_heartbeat rc quiet_not_heartbeat Hq);
      cbn; split; lia.
  - destruct H as (_ & r & Hr & Ht & _).
    pose proof (reconnect_rounds_quiet b fuel r Hr) as Hq.
    rewrite Ht, !count_app, !count_cons,
      (count_quiet is_poll r quiet_not_poll Hq),
      (count_quiet is_heartbeat r quiet_not_heartbeat Hq).
    cbn. split; lia.
Qed.

Lemma repeat_loop_counts (env : Env) (b : Build) (fuel n : nat) :
  forall s,
    (count is_poll (trace (state_of (repeat_loop n (loop env b fuel) s))) <=
       count is_poll (trace s) + n)%nat /\
    (count is_heartbeat (trace (state_of (repeat_loop n (loop env b fuel) s))) <=
       count is_heartbeat (trace s) + n)%nat /\
    (returned (repeat_loop n (loop env b fuel) s) = true ->
     count is_poll (trace (state_of (repeat_loop n (loop env b fuel) s))) =
       (count is_poll (trace s) + n)%nat).
Proof.
  induction n as [| n IH]; intros s.
  - cbn. repeat split; lia.
  - cbn [repeat_loop]. unfold bind.
    pose proof (loop_counts env b fuel s) as H.
    destruct (loop env b fuel s) as [[] s1 | s1].
    + destruct H as [Hp Hh]. destruct (IH s1) as (IHp & IHh & IHr).
      split; [lia |]. split; [lia |].
      intros Hret. rewrite (IHr Hret). lia.
    + destruct H as [Hp Hh]. cbn [state_of returned].
      split; [lia |]. split; [lia |]. discriminate.
Qed.

(** X11: mqtt.loop() is serviced only by loop(), once per round that
    returns: a run that came back from [n] rounds has polled exactly [n]
    times; whether it came back or not, it has polled at most [n] times and
    published at most [n] heartbeats. *)
Theorem firmware_polls_once_per_round (env : Env) (b : Build) (fuel n : nat) :
  (count is_poll (trace (state_of (firmware env b fuel n boot))) <= n)%nat /\
  (count is_heartbeat (trace (state_of (firmware env b fuel n boot))) <= n)%nat /\
  (returned (firmware env b fuel n boot) = true ->
   count is_poll (trace (state_of (firmware env b fuel n boot))) = n).
Proof.
  unfold firmware, bind.
  destruct (boot_step_setup env b fuel boot) as [_ (evs & Ht & Hev)].
  pose proof (boot_events_quiet evs Hev) as Hq.
  cbn [boot trace app] in Ht.
  destruct (setup env b fuel boot) as [[] s1 | s1]; cbn [state_of] in *.
  - destruct (repeat_loop_counts env b fuel n s1) as (Hp & Hh & Hr).
    rewrite Ht in Hp, Hh, Hr.
    rewrite (count_quiet is_poll evs quiet_not_poll Hq) in Hp, Hr.
    rewrite (count_quiet is_heartbeat evs quiet_not_heartbeat Hq) in Hh.
    split; [lia |]. split; [lia |]. exact Hr.
  - rewrite Ht.
    rewrite (count_quiet is_poll evs quiet_not_poll Hq),
      (count_quiet is_heartbeat evs quiet_not_heartbeat Hq).
    split; [lia |]. split; [lia |]. discriminate.
Qed.

Lemma firmware_polls_once_per_round_witness :
  returned (firmware calm_env default_build 4 12 boot) = true /\
  count is_poll (trace (state_of (firmware calm_env default_build 4 12 boot))) =
    12%nat.
Proof.
  assert (Hret : returned (firmware calm_env default_build 4 12 boot) = true)
    by (vm_compute; reflexivity).
  split; [exact Hret |].
  exact (proj2 (proj2 (firmware_polls_once_per_round
                         calm_env default_build 4 12)) Hret).
Defined.

(** ** Connects, back-off and diagnostics over a whole run *)

Lemma reconnect_rounds_connects_as (b : Build) (n : nat) (r : list Event) :
  reconnect_rounds b n r -> Forall (connects_as b) r.
Proof.
  induction 1; [constructor | |];
    repeat (apply Forall_cons; [exact I || reflexivity |]); assumption.
Qed.

Lemma connect_phase_connects_as (b : Build) (rc : list Event) :
  connect_phase b rc -> Forall (connects_as b) rc.
Proof.
  intros [-> | (n & r & Hr & ->)].
  - repeat constructor.
  - apply Forall_cons; [exact I |]. apply Forall_app. split.
    + eapply reconnect_rounds_connects_as, Hr.
    + repeat constructor.
Qed.

Lemma forall_grows_trans (P : Event -> Prop) (s1 s2 s3 : State) :
  grows (Forall P) s1 s2 -> grows (Forall P) s2 s3 -> grows (Forall P) s1 s3.
Proof.
  apply grows_trans. intros a c Ha Hc. apply Forall_app. now split.
Qed.

(** X9: every connect the firmware ever attempts is made under the device
    name, the same string its heartbeats carry: the MQTT client id never
    varies over a run. *)
Theorem firmware_connects_under_device_name
    (env : Env) (b : Build) (fuel n : nat) :
  Forall (connects_as b) (trace (state_of (firmware env b fuel n boot))).
Proof.
  - assert (H : respects (grows (Forall (connects_as b))) (firmware env b fuel n)).
    { unfold firmware. apply respects_bind.
      - apply forall_grows_trans.
      - intros s.
        destruct (boot_step_setup env b fuel s) as [_ (evs & Ht & Hev)].
        exists evs. split; [exact Ht |].
        revert Hev. apply Forall_impl. intros e He. now destruct e.
      - intros _. apply respects_repeat.
        + apply grows_refl. constructor.
        + apply forall_grows_trans.
        + intros s. pose proof (loop_shape env b fuel s) as H.
          destruct (loop env b fuel s) as [[] s' | s']; cbn [state_of].
          * destruct H as (rc & Hrc & [(_ & Ht & _) | (_ & Ht & _)]);
              eexists; (split; [exact Ht |]);
              (apply Forall_app; split;
               [now apply connect_phase_connects_as | repeat constructor]).
          * destruct H as (_ & r & Hr & Ht & _).
            eexists. split; [exact Ht |].
            apply Forall_cons; [exact I |].
            eapply reconnect_rounds_connects_as, Hr. }
    destruct (H boot) as (evs & Ht & Hev). now rewrite Ht.
Qed.

Lemma firmware_connects_under_device_name_witness :
  Forall (connects_as full_build)
         (trace (state_of (firmware calm_env full_build 4 6 boot))).
Proof.
  exact (firmware_connects_under_device_name calm_env full_build 4 6).
Defined.

Lemma backs_off_nil : backs_off [].
Proof. split; reflexivity. Qed.

Lemma backs_off_app (a c : list Event) :
  backs_off a -> backs_off c -> backs_off (a ++ c).
Proof.
  intros [Ha1 Ha2] [Hc1 Hc2]. split; rewrite !count_app; congruence.
Qed.

Lemma backs_off_rounds (b : Build) (n : nat) (r : list Event) :
  reconnect_rounds b n r -> backs_off r.
Proof.
  induction 1 as [| n rest _ [IH1 IH2] | n rc rest _ [IH1 IH2]].
  - apply backs_off_nil.
  - split; rewrite !count_cons; cbn; congruence.
  - split; rewrite !count_cons; cbn; congruence.
Qed.

Lemma backs_off_connect_phase (b : Build) (rc : list Event) :
  connect_phase b rc -> backs_off rc.
Proof.
  intros [-> | (n & r & Hr & ->)].
  - split; reflexivity.
  - apply (backs_off_app [MqttConnected false]); [split; reflexivity |].
    apply backs_off_app; [eapply backs_off_rounds, Hr | split; reflexivity].
Qed.

Lemma backs_off_setup (env : Env) (b : Build) (fuel : nat) :
  respects (grows backs_off) (setup env b fuel).
Proof.
  intros s. pose proof (setup_shape env b fuel s) as H.
  assert (Hpins : forall pin l, backs_off (pin_ops pin l)).
  { intros pin l. split;
      rewrite !(pin_ops_count_zero _ _ _
                  (fun _ _ => eq_refl) (fun _ _ => eq_refl));
      reflexivity. }
  assert (Hrounds : forall k r, wifi_rounds k r -> backs_off r).
  { intros k r Hr. split;
      rewrite !(wifi_rounds_count_zero _ k r
                  (fun _ => eq_refl) eq_refl eq_refl Hr);
      reflexivity. }
  destruct (setup env b fuel s) as [[] s' | s']; cbn [state_of].
  - destruct H as (n & r & _ & Hr & Ht & _).
    eexists. split; [exact Ht |].
    apply backs_off_app.
    + apply (backs_off_app [SerialBegin 115200; Delay 200]);
        [split; reflexivity |].
      apply backs_off_app; apply Hpins.
    + apply (backs_off_app [WiFiMode WIFI_STA; WiFiBegin WIFI_SSID WIFI_PASS]);
        [split; reflexivity |].
      apply backs_off_app; [eapply Hrounds, Hr | split; reflexivity].
  - destruct H as (r & Hr & Ht & _).
    eexists. split; [exact Ht |].
    apply backs_off_app.
    + apply (backs_off_app [SerialBegin 115200; Delay 200]);
        [split; reflexivity |].
      apply backs_off_app; apply Hpins.
    + apply (backs_off_app [WiFiMode WIFI_STA; WiFiBegin WIFI_SSID WIFI_PASS]);
        [split; reflexivity |].
      eapply Hrounds, Hr.
Qed.

Lemma backs_off_loop (env : Env) (b : Build) (fuel : nat) :
  respects (grows backs_off) (loop env b fuel).
Proof.
  intros s. pose proof (loop_shape env b fuel s) as H.
  destruct (loop env b fuel s) as [[] s' | s']; cbn [state_of].
  - destruct H as (rc & Hrc & [(_ & Ht & _) | (_ & Ht & _)]);
      eexists; (split; [exact Ht |]);
      (apply backs_off_app;
       [now apply (backs_off_connect_phase b) | split; reflexivity]).
  - destruct H as (_ & r & Hr & Ht & _).
    eexists. split; [exact Ht |].
    apply (backs_off_app [MqttConnected false]); [split; reflexivity |].
    eapply backs_off_rounds, Hr.
Qed.

(** X10: over a whole run of the firmware, the waits of 2000 ms and the
    reads of mqtt.state() are exactly as many as the connects that failed:
    the sketch backs off and reports once per failure, and neither setup()
    nor the heartbeat path nor a successful connect ever costs a 2000 ms
    wait. *)
Theorem firmware_backs_off_once_per_failure
    (env : Env) (b : Build) (fuel n : nat) :
  count (is_delay 2000) (trace (state_of (firmware env b fuel n boot))) =
    count is_connect_failed (trace (state_of (firmware env b fuel n boot))) /\
  count is_state_read (trace (state_of (firmware env b fuel n boot))) =
    count is_connect_failed (trace (state_of (firmware env b fuel n boot))).
Proof.
  assert (H : respects (grows backs_off) (firmware env b fuel n)).
  { unfold firmware. apply respects_bind.
    - apply grows_trans, backs_off_app.
    - apply backs_off_setup.
    - intros _. apply respects_repeat.
      + apply grows_refl, backs_off_nil.
      + apply grows_trans, backs_off_app.
      + apply backs_off_loop. }
  destruct (H boot) as (evs & Ht & Hev).
  rewrite Ht. exact Hev.
Qed.

Lemma firmware_backs_off_once_per_failure_witness :
  count (is_delay 2000)
    (trace (state_of (firmware calm_env full_build 4 6 boot))) = 1%nat /\
  count is_connect_failed
    (trace (state_of (firmware calm_env full_build 4 6 boot))) = 1%nat /\
  count is_state_read
    (trace (state_of (firmware calm_env full_build 4 6 boot))) =
  count is_connect_failed
    (trace (state_of (firmware calm_env full_build 4 6 boot))).
Proof.
  split; [vm_compute; reflexivity |]. split; [vm_compute; reflexivity |].
  exact (proj2 (firmware_backs_off_once_per_failure calm_env full_build 4 6)).
Defined.

(** ** With the broker out of reach *)

Lemma boot_events_no_connect (evs : list Event) :
  Forall (fun e => boot_event e = true) evs -> count is_connect evs = O.
Proof.
  intros H. induction H as [| e evs He _ IH]; [reflexivity |].
  rewrite count_cons, IH. now destruct e.
Qed.

Lemma loop_blocked_while_down (env : Env) (b : Build) (fuel : nat) (s : State) :
  (forall i, connected_at env (connected_polls s + i) = false) ->
  exists s' r,
    loop env b fuel s = Blocked s' /\
    reconnect_rounds b fuel r /\
    trace s' = trace s ++ MqttConnected false :: r.
Proof.
  intros Hdown. pose proof (loop_shape env b fuel s) as H.
  destruct (loop env b fuel s) as [[] s' | s'] eqn:Hrun.
  - exfalso.
    assert (Hup : connects_within env s fuel -> False).
    { intros (k & _ & Hk). rewrite Hdown in Hk. discriminate. }
    clear H. revert Hrun. unfold loop. unfold bind at 1.
    unfold mqtt_connected at 1. cbv zeta.
    pose proof (Hdown O) as H0. rewrite Nat.add_0_r in H0. rewrite H0.
    cbn [negb]. unfold bind at 1.
    pose proof (mqttReconnect_shape env b fuel
                  (log (MqttConnected false) (next_connected s))) as Hrec.
    destruct (mqttReconnect env b fuel
                (log (MqttConnected false) (next_connected s)))
      as [[] s2 | s2]; [| discriminate].
    destruct Hrec as (k & _ & _ & _ & _ & _ & _ & Hhi & _).
    cbn [connected_polls log next_connected] in Hhi.
    rewrite Nat.add_succ_comm, Hdown in Hhi. discriminate.
  - destruct H as (_ & r & Hr & Ht & _). now exists s', r.
Qed.

(** X12: once the network is up but mqtt.connected() never reports the
    client connected, the firmware never gets past the first call of
    mqttReconnect(): whatever the budget and the number of rounds asked for,
    it has attempted as many connects as the budget allows, and it has
    published no heartbeat, serviced no keepalive poll and never read the
    clock. *)
Theorem firmware_silent_while_broker_down
    (env : Env) (b : Build) (fuel rounds k : nat) :
  (forall i, (i < k)%nat -> wifi_status_at env i <> WL_CONNECTED) ->
  wifi_status_at env k = WL_CONNECTED ->
  (k < fuel)%nat ->
  (forall i, connected_at env i = false) ->
  exists s',
    firmware env b fuel (S rounds) boot = Blocked s' /\
    count is_connect (trace s') = fuel /\
    count is_heartbeat (trace s') = O /\
    count is_poll (trace s') = O /\
    count is_millis (trace s') = O.
Proof.
  intros Hlo Hhi Hfuel Hdown. unfold firmware. unfold bind at 1.
  pose proof (setup_shape env b fuel boot) as H.
  destruct (boot_step_setup env b fuel boot) as [_ (evs & Ht & Hev)].
  destruct (setup env b fuel boot) as [[] s1 | s1]; cbn [state_of] in Ht.
  - clear H. cbn [repeat_loop]. unfold bind at 1.
    destruct (loop_blocked_while_down env b fuel s1) as (s' & r & Hrun & Hr & Ht').
    { intros i. apply Hdown. }
    rewrite Hrun. exists s'. split; [reflexivity |].
    pose proof (reconnect_rounds_quiet b fuel r Hr) as Hq.
    destruct (reconnect_rounds_counts b fuel r Hr) as (Hc & _).
    pose proof (boot_events_quiet evs Hev) as Hqe.
    pose proof (boot_events_no_connect evs Hev) as Hce.
    assert (Hme : forall l, Forall (fun e => quiet e = true) l ->
                            count is_millis l = O).
    { intros l Hl. apply (count_quiet is_millis l); [| exact Hl].
      intros e He. now destruct e. }
    rewrite Ht', Ht. cbn [boot trace app].
    rewrite !count_app, !count_cons, Hc, Hce.
    rewrite (count_quiet is_heartbeat evs quiet_not_heartbeat Hqe),
      (count_quiet is_heartbeat r quiet_not_heartbeat Hq),
      (count_quiet is_poll evs quiet_not_poll Hqe),
      (count_quiet is_poll r quiet_not_poll Hq),
      (Hme evs Hqe), (Hme r Hq).
    cbn. repeat split.
  - exfalso. destruct H as (_ & _ & _ & Hdown').
    now apply (Hdown' k Hfuel).
Qed.

Lemma firmware_silent_while_broker_down_witness :
  exists s',
    firmware (mkEnv (fun i => if (i <? 2)%nat then 6 else 3)
                    (fun _ => false) (fun _ => false) (fun _ => -2)
                    (fun i => 2500 * Z.of_nat i))
             default_build 5 (S 3) boot = Blocked s' /\
    count is_connect (trace s') = 5%nat /\
    count is_heartbeat (trace s') = O /\
    count is_poll (trace s') = O /\
    count is_millis (trace s') = O.
Proof.
  apply (firmware_silent_while_broker_down
           (mkEnv (fun i => if (i <? 2)%nat then 6 else 3)
                  (fun _ => false) (fun _ => false) (fun _ => -2)
                  (fun i => 2500 * Z.of_nat i))
           default_build 5 3 2).
  - intros [| [| i]] Hi; (discriminate || lia).
  - reflexivity.
  - lia.
  - intros i. reflexivity.
Defined.
